(** * Order editing screen ([OrderEdit]): line items, quantities, prices,
      order total and the checks made before an order is saved.

    The development embeds the handlers of the [OrderEdit] component
    (source file [src/unnamed/part_002]) as functions on the component's
    state and proves the properties the specification states about them.

    Conventions of the embedding.

    - A JavaScript [number] is [JS.number]: [NaN], the two infinities, or a
      finite value held as a rational.  [Math.floor], [Math.max], the
      comparisons, [isNaN] and truthiness are exact on binary64 values, so they
      are modelled exactly.  [+] and [*] compute the exact rational result
      and round it as binary64 does ([JS.round]: to nearest, ties to even,
      subnormal values, overflow to infinity).  The sign of zero is not
      modelled: [-0] and [0] are the same number, and no handler
      distinguishes them.
    - A JavaScript string is a [string]; [toUpperCase] and [substring] are
      modelled on ASCII text only.
    - A React state update ([setItems], [setHasChanges], ...) made by a handler
      is a field update of the [State] record; a handler is a function from
      the state it was rendered with to the next state and the list of
      effects it performed ([toast], [updateOrder], [navigate], ...), in
      program order.
    - What the environment supplies ([crypto.randomUUID()], the text parsed by
      [parseFloat]/[parseInt], the answer of the data store to [updateOrder])
      is an argument of the handler. *)

From Stdlib Require Import ZArith QArith Qcanon Qround Qpower List String Bool Lia.
Import ListNotations.
Local Open Scope string_scope.

(** ** JavaScript values used by the component *)

Module JS.

(** [number]: IEEE 754 binary64 seen as [NaN], [+Infinity], [-Infinity] or a
    finite value. *)
Inductive number : Type :=
| NaN
| PosInf
| NegInf
| Fin (q : Qc).

Definition ofZ (z : Z) : number := Fin (Q2Qc (inject_Z z)).

Definition zero : number := ofZ 0.
Definition one : number := ofZ 1.

(** [isNaN(x)] *)
Definition isNaN (x : number) : bool :=
  match x with NaN => true | _ => false end.

(** Truthiness of a number: [0] and [NaN] are falsy. *)
Definition truthy (x : number) : bool :=
  match x with
  | NaN => false
  | Fin q => negb (Qeq_bool q 0)
  | PosInf | NegInf => true
  end.

(** [a || b] on numbers *)
Definition or (a b : number) : number := if truthy a then a else b.

(** [Math.floor(x)] *)
Definition floor (x : number) : number :=
  match x with
  | Fin q => ofZ (Qfloor q)
  | _ => x
  end.

(** [Math.max(a, b)] *)
Definition max (a b : number) : number :=
  match a, b with
  | NaN, _ | _, NaN => NaN
  | PosInf, _ | _, PosInf => PosInf
  | NegInf, y => y
  | x, NegInf => x
  | Fin p, Fin q => if Qle_bool p q then b else a
  end.

(** [a >= b] *)
Definition ge (a b : number) : bool :=
  match a, b with
  | NaN, _ | _, NaN => false
  | PosInf, _ => true
  | _, NegInf => true
  | NegInf, _ => false
  | Fin _, PosInf => false
  | Fin p, Fin q => Qle_bool q p
  end.

(** [2^z] *)
Definition two_to (z : Z) : Q := Qpower 2 z.

(** The exponent of a positive rational: the [e] with [2^e <= q < 2^(e+1)].
    The difference of the binary logarithms of numerator and denominator is
    [e] or [e + 1]. *)
Definition ilog2 (q : Q) : Z :=
  let e0 := (Z.log2 (Qnum q) - Z.log2 (Zpos (Qden q)))%Z in
  if Qle_bool (two_to e0) q then e0 else (e0 - 1)%Z.

(** The integer nearest to [m], the even one when two are equally near. *)
Definition roundHalfEven (m : Q) : Z :=
  let f := Qfloor m in
  match (m - inject_Z f ?= 1 # 2)%Q with
  | Lt => f
  | Gt => (f + 1)%Z
  | Eq => if Z.even f then f else (f + 1)%Z
  end.

(** binary64 rounding of a positive rational, to nearest, ties to even: the
    value is a multiple of [2^(e-52)], where [e] is the exponent of [q] and
    at least [-1022] (below that the values are subnormal); [None] is the
    overflow to infinity, for results of [2^1024] and more. *)
Definition roundPos (q : Q) : option Q :=
  let u := two_to (Z.max (ilog2 q) (-1022) - 52) in
  let r := (inject_Z (roundHalfEven (q / u)) * u)%Q in
  if Qle_bool (two_to 1024) r then None else Some r.

(** The binary64 value of the exact result [q] of an operation. *)
Definition round (q : Q) : number :=
  match (q ?= 0)%Q with
  | Eq => Fin (Q2Qc 0)
  | Gt => match roundPos q with Some r => Fin (Q2Qc r) | None => PosInf end
  | Lt => match roundPos (- q) with Some r => Fin (Q2Qc (- r)) | None => NegInf end
  end.

(** [a + b] *)
Definition add (a b : number) : number :=
  match a, b with
  | NaN, _ | _, NaN => NaN
  | PosInf, NegInf | NegInf, PosInf => NaN
  | PosInf, _ | _, PosInf => PosInf
  | NegInf, _ | _, NegInf => NegInf
  | Fin p, Fin q => round (p + q)
  end.

(** Sign of a number that is not [NaN]. *)
Definition sign (x : number) : comparison :=
  match x with
  | NaN => Eq
  | PosInf => Gt
  | NegInf => Lt
  | Fin q => (q ?= 0)%Q
  end.

(** [a * b] *)
Definition mul (a b : number) : number :=
  match a, b with
  | NaN, _ | _, NaN => NaN
  | Fin p, Fin q => round (p * q)
  | _, _ =>
      match sign a, sign b with
      | Eq, _ | _, Eq => NaN
      | Gt, Gt | Lt, Lt => PosInf
      | Gt, Lt | Lt, Gt => NegInf
      end
  end.

(** Truthiness of a string: only the empty string is falsy. *)
Definition truthyS (s : string) : bool :=
  match s with EmptyString => false | String _ _ => true end.

(** [s || t] on strings *)
Definition orS (s t : string) : string := if truthyS s then s else t.


(** Upper case of an ASCII letter; other characters are kept. *)
Definition upper (c : Ascii.ascii) : Ascii.ascii :=
  let n := Ascii.nat_of_ascii c in
  if andb (Nat.leb 97 n) (Nat.leb n 122) then Ascii.ascii_of_nat (n - 32) else c.

(** [s.toUpperCase()] on ASCII text.  On other text JavaScript applies the
    Unicode case mapping, which this function does not model. *)
Fixpoint toUpperCase (s : string) : string :=
  match s with
  | EmptyString => EmptyString
  | String c s' => String (upper c) (toUpperCase s')
  end.

(** [s.substring(0, n)] on ASCII text, where the characters of the [string]
    are the UTF-16 code units that JavaScript counts. *)
Definition substring0 (n : nat) (s : string) : string := String.substring 0 n s.


End JS.

Declare Scope js_scope.
Delimit Scope js_scope with js.
Bind Scope js_scope with JS.number.
Notation "a + b" := (JS.add a b) : js_scope.
Notation "a * b" := (JS.mul a b) : js_scope.
Notation "a || b" := (JS.or a b) : js_scope.
Notation "a >= b" := (JS.ge a b) : js_scope.

(** ** Records of [src/lib/types.ts] read by the screen *)

Module Customer.
Record t : Type := { id : string; name : string }.
End Customer.

Module Employee.
Record t : Type := { id : string; name : string; department : string }.
End Employee.

Module Product.
Inductive Status : Type := available | unavailable.
(** [BaseProduct]: the fields the order screen reads.  The category and its
    attributes, the description and the creation date are never read by the
    handlers below. *)
Record t : Type :=
  { id : string; name : string; price : JS.number; stock : JS.number;
    status : Status }.
End Product.

Module OrderItem.
(** [OrderItem] of [src/lib/types.ts].  The [items] state is declared with
    the first five fields (lines 33-41) and is filled with the items of the
    loaded order, which can carry the two optional fields as well. *)
Record t : Type :=
  { id : string; productId : string; productName : string;
    quantity : JS.number; price : JS.number;
    details : option string; stockAfterOrder : option JS.number }.
End OrderItem.

Inductive OrderStatus : Type := pending | processing | completed | cancelled.

Module Order.
Record t : Type :=
  { id : string; customerId : string; customerName : string;
    employeeId : string; employeeName : string;
    items : list OrderItem.t; total : JS.number; status : OrderStatus }.
End Order.

(** ** The [OrderEdit] component *)

Module OrderEdit.

(** The [useState] cells of the component (lines 33-48). *)
Record State : Type :=
  { items : list OrderItem.t;
    customerId : string;
    employeeId : string;
    status : OrderStatus;
    isSubmitting : bool;
    hasChanges : bool }.

(** What the component reads from the route and from its queries
    (lines 28, 51-75). *)
Record Env : Type :=
  { id : option string;
    order : option Order.t;
    customers : list Customer.t;
    products : list Product.t;
    employees : list Employee.t }.

Record Toast : Type :=
  { title : string; description : string; destructive : bool }.

(** The body sent to [updateOrder] (lines 219-233). *)
Record OrderUpdate : Type :=
  { u_customerId : string; u_customerName : string;
    u_employeeId : string; u_employeeName : string;
    u_items : list OrderItem.t; u_total : JS.number;
    u_status : OrderStatus }.

Inductive Effect : Type :=
| toast (t : Toast)
| updateOrder (id : string) (body : OrderUpdate)
| invalidateQueries (queryKey : list string)
| navigate (path : string)
| console_error (message : string).

(** How the awaited [updateOrder] call ends: it resolves to an order, it
    resolves to nothing, or it throws. *)
Inductive Reply : Type :=
| Resolved (updatedOrder : option Order.t)
| Thrown.

(** The initial values given to [useState]. *)
Definition initialState : State :=
  {| items := []; customerId := ""; employeeId := ""; status := pending;
     isSubmitting := false; hasChanges := false |}.

Definition setItems (v : list OrderItem.t) (s : State) : State :=
  {| items := v; customerId := customerId s; employeeId := employeeId s;
     status := status s; isSubmitting := isSubmitting s;
     hasChanges := hasChanges s |}.

Definition setCustomerId (v : string) (s : State) : State :=
  {| items := items s; customerId := v; employeeId := employeeId s;
     status := status s; isSubmitting := isSubmitting s;
     hasChanges := hasChanges s |}.

Definition setEmployeeId (v : string) (s : State) : State :=
  {| items := items s; customerId := customerId s; employeeId := v;
     status := status s; isSubmitting := isSubmitting s;
     hasChanges := hasChanges s |}.

Definition setStatus (v : OrderStatus) (s : State) : State :=
  {| items := items s; customerId := customerId s;
     employeeId := employeeId s; status := v;
     isSubmitting := isSubmitting s; hasChanges := hasChanges s |}.

Definition setIsSubmitting (v : bool) (s : State) : State :=
  {| items := items s; customerId := customerId s;
     employeeId := employeeId s; status := status s; isSubmitting := v;
     hasChanges := hasChanges s |}.

Definition setHasChanges (v : bool) (s : State) : State :=
  {| items := items s; customerId := customerId s;
     employeeId := employeeId s; status := status s;
     isSubmitting := isSubmitting s; hasChanges := v |}.

(** The effect run when the [order] query delivers (lines 78-86).  The
    [|| ...] defaults guard fields that the type declares present; on a
    value of type [Order] only the empty strings take the default, which is
    the empty string again. *)
Definition loadOrder (o : Order.t) (s : State) : State :=
  setHasChanges false
    (setStatus (Order.status o)
       (setEmployeeId (JS.orS (Order.employeeId o) "")
          (setCustomerId (JS.orS (Order.customerId o) "")
             (setItems (Order.items o) s)))).

(** Lines 88-100.  [uuid] is the value of [crypto.randomUUID()]. *)
Definition addItem (uuid : string) (s : State) : State * list Effect :=
  (setHasChanges true
     (setItems
        (items s ++
           [ {| OrderItem.id := uuid;
                OrderItem.productId := "";
                OrderItem.productName := "";
                OrderItem.quantity := JS.one;
                OrderItem.price := JS.zero;
                OrderItem.details := None;
                OrderItem.stockAfterOrder := None |} ])
        s),
   []).

Definition cannotRemove : Toast :=
  {| title := "Cannot remove item";
     description := "Orders must have at least one item";
     destructive := true |}.

(** Lines 102-113. *)
Definition removeItem (id : string) (s : State) : State * list Effect :=
  if Nat.ltb 1 (List.length (items s)) then
    (setHasChanges true
       (setItems
          (filter (fun item => negb (String.eqb (OrderItem.id item) id))
             (items s))
          s),
     [])
  else
    (s, [toast cannotRemove]).

(** Lines 115-133. *)
Definition updateItemPrice (env : Env) (id productId : string) (s : State)
  : State * list Effect :=
  match find (fun p => String.eqb (Product.id p) productId) (products env) with
  | Some product =>
      (setHasChanges true
         (setItems
            (map (fun item =>
                    if String.eqb (OrderItem.id item) id then
                      {| OrderItem.id := OrderItem.id item;
                         OrderItem.productId := Product.id product;
                         OrderItem.productName := Product.name product;
                         OrderItem.quantity := JS.one;
                         OrderItem.price := Product.price product;
                         OrderItem.details := OrderItem.details item;
                         OrderItem.stockAfterOrder := OrderItem.stockAfterOrder item |}
                    else item)
               (items s))
            s),
       [])
  | None => (s, [])
  end.

(** Lines 135-148. *)
Definition updateItemQuantity (id : string) (quantity : JS.number) (s : State)
  : State * list Effect :=
  let validQuantity := JS.max JS.one (JS.floor quantity) in
  (setHasChanges true
     (setItems
        (map (fun item =>
                if String.eqb (OrderItem.id item) id then
                  {| OrderItem.id := OrderItem.id item;
                     OrderItem.productId := OrderItem.productId item;
                     OrderItem.productName := OrderItem.productName item;
                     OrderItem.quantity := validQuantity;
                     OrderItem.price := OrderItem.price item;
                     OrderItem.details := OrderItem.details item;
                     OrderItem.stockAfterOrder := OrderItem.stockAfterOrder item |}
                else item)
           (items s))
        s),
   []).

(** Lines 150-155: the [reduce] runs left to right from [0]. *)
Definition calculateTotal (s : State) : JS.number :=
  fold_left
    (fun sum item =>
       if negb (JS.truthyS (OrderItem.productId item)) then sum
       else (sum + (OrderItem.price item || JS.zero)
                   * (OrderItem.quantity item || JS.one))%js)
    (items s) JS.zero.

(** The [onChange] handler of the price input of the row of [item]
    (lines 457-467).  [price] is the value of
    [parseFloat(e.target.value)]. *)
Definition priceOnChange (item : OrderItem.t) (price : JS.number) (s : State)
  : State * list Effect :=
  if negb (JS.isNaN price) && (price >= JS.zero)%js then
    (setHasChanges true
       (setItems
          (map (fun i =>
                  if String.eqb (OrderItem.id i) (OrderItem.id item) then
                    {| OrderItem.id := OrderItem.id i;
                       OrderItem.productId := OrderItem.productId i;
                       OrderItem.productName := OrderItem.productName i;
                       OrderItem.quantity := OrderItem.quantity i;
                       OrderItem.price := price;
                       OrderItem.details := OrderItem.details i;
                       OrderItem.stockAfterOrder := OrderItem.stockAfterOrder i |}
                  else i)
             (items s))
          s),
     [])
  else (s, []).

(** The [onChange] handler of the quantity input of the row of [item]
    (lines 478-483).  [quantity] is the value of
    [parseInt(e.target.value)]. *)
Definition quantityOnChange (item : OrderItem.t) (quantity : JS.number)
  (s : State) : State * list Effect :=
  if negb (JS.isNaN quantity) && (quantity >= JS.one)%js then
    updateItemQuantity (OrderItem.id item) quantity s
  else (s, []).

(** Lines 402-405: the [max] attribute of the quantity input,
    [selectedProduct?.stock || 0]. *)
Definition maxQuantity (env : Env) (item : OrderItem.t) : JS.number :=
  match find (fun p => String.eqb (Product.id p) (OrderItem.productId item))
          (products env) with
  | Some selectedProduct => (Product.stock selectedProduct || JS.zero)%js
  | None => JS.zero
  end.

Definition customerRequired : Toast :=
  {| title := "Customer required";
     description := "Please select a customer for this order";
     destructive := true |}.

Definition employeeRequired : Toast :=
  {| title := "Employee required";
     description := "Please select an employee who processed this order";
     destructive := true |}.

Definition productsRequired : Toast :=
  {| title := "Products required";
     description := "Please add at least one product to the order";
     destructive := true |}.

Definition customerNotFound : Toast :=
  {| title := "Error";
     description := "Selected customer not found";
     destructive := true |}.

Definition employeeNotFound : Toast :=
  {| title := "Error";
     description := "Selected employee not found";
     destructive := true |}.

Definition updateFailed : Toast :=
  {| title := "Update failed";
     description := "There was a problem updating the order. Please try again.";
     destructive := true |}.

Definition orderUpdated (updatedOrder : Order.t) : Toast :=
  {| title := "Order updated";
     description :=
       "Order #"
       ++ JS.toUpperCase (JS.substring0 8 (Order.id updatedOrder))
       ++ " updated successfully";
     destructive := false |}.

(** The block headed [// Validate form] of [handleSubmit] (lines 162-188):
    the toast of the first check that fails, or [None] when the three [if]s
    are passed. *)
Definition validateForm (s : State) : option Toast :=
  if negb (JS.truthyS (customerId s)) then Some customerRequired
  else if negb (JS.truthyS (employeeId s)) then Some employeeRequired
  else if Nat.eqb (List.length (items s)) 0
          || existsb (fun item => negb (JS.truthyS (OrderItem.productId item)))
               (items s)
  then Some productsRequired
  else None.

(** The object literal passed to [updateOrder] (lines 219-233). *)
Definition orderUpdate (customer : Customer.t) (employee : Employee.t)
  (s : State) : OrderUpdate :=
  {| u_customerId := customerId s;
     u_customerName := Customer.name customer;
     u_employeeId := employeeId s;
     u_employeeName := Employee.name employee;
     u_items :=
       map (fun item =>
              {| OrderItem.id := OrderItem.id item;
                 OrderItem.productId := OrderItem.productId item;
                 OrderItem.productName := JS.orS (OrderItem.productName item) "";
                 OrderItem.quantity := (OrderItem.quantity item || JS.one)%js;
                 OrderItem.price := (OrderItem.price item || JS.zero)%js;
                 OrderItem.details := None;
                 OrderItem.stockAfterOrder := None |})
         (items s);
     u_total := calculateTotal s;
     u_status := status s |}.

(** Lines 157-262.  [store] is the data store behind the awaited
    [updateOrder(id, body)].  The state returned is the one after the
    [finally] block; [e.preventDefault()] acts on the DOM event and is not
    recorded among the effects. *)
Definition handleSubmit (env : Env) (store : string -> OrderUpdate -> Reply)
  (s : State) : State * list Effect :=
  match id env with
  | None => (s, [])
  | Some id =>
      if negb (JS.truthyS id) || isSubmitting s then (s, [])
      else
        match validateForm s with
        | Some t => (s, [toast t])
        | None =>
            match find (fun c => String.eqb (Customer.id c) (customerId s))
                    (customers env) with
            | None => (s, [toast customerNotFound])
            | Some customer =>
                match find (fun e => String.eqb (Employee.id e) (employeeId s))
                        (employees env) with
                | None => (s, [toast employeeNotFound])
                | Some employee =>
                    let body := orderUpdate customer employee s in
                    let after :=
                      match store id body with
                      | Resolved (Some updatedOrder) =>
                          [ invalidateQueries ["orders"];
                            invalidateQueries ["order"; id];
                            toast (orderUpdated updatedOrder);
                            navigate ("/orders/" ++ id) ]
                      | Resolved None | Thrown =>
                          [ console_error "Error updating order:";
                            toast updateFailed ]
                      end in
                    (setIsSubmitting false (setIsSubmitting true s),
                     updateOrder id body :: after)
                end
            end
        end
  end.

(** The edits a user can make to the item list, each with the handler it
    runs. *)
Inductive Edit : Type :=
| AddItem (uuid : string)
| RemoveItem (id : string)
| UpdateItemPrice (id productId : string)
| UpdateItemQuantity (id : string) (quantity : JS.number)
| PriceChange (item : OrderItem.t) (price : JS.number).

Definition edit (env : Env) (e : Edit) (s : State) : State * list Effect :=
  match e with
  | AddItem uuid => addItem uuid s
  | RemoveItem id => removeItem id s
  | UpdateItemPrice id productId => updateItemPrice env id productId s
  | UpdateItemQuantity id quantity => updateItemQuantity id quantity s
  | PriceChange item price => priceOnChange item price s
  end.

(** The state after a sequence of edits, first edit first. *)
Definition edits (env : Env) (es : list Edit) (s : State) : State :=
  fold_left (fun s e => fst (edit env e s)) es s.

End OrderEdit.

Import OrderEdit.

(** ** Statements of the specification, in its own words *)

(** An item has a product selected when its [productId] is not empty. *)
Definition selected (item : OrderItem.t) : bool :=
  JS.truthyS (OrderItem.productId item).

(** Sum of a sequence of numbers, first term first. *)
Definition sum (l : list JS.number) : JS.number := fold_left JS.add l JS.zero.

(** [computeTotal] as the specification words it: the sum of
    [unitPrice * quantity] over the items with a product selected. *)
Definition computeTotal (l : list OrderItem.t) : JS.number :=
  sum (map (fun item => (OrderItem.price item * OrderItem.quantity item)%js)
         (filter selected l)).

(** The amount [calculateTotal] adds for a selected item. *)
Definition lineAmount (item : OrderItem.t) : JS.number :=
  ((OrderItem.price item || JS.zero) * (OrderItem.quantity item || JS.one))%js.

(** A quantity allowed by the data model: an integer that is at least 1. *)
Definition validQuantity (x : JS.number) : Prop :=
  exists z : Z, (1 <= z)%Z /\ x = JS.ofZ z.

(** A real number, as opposed to [NaN] and the infinities. *)
Definition real (x : JS.number) : Prop := exists q : Qc, x = JS.Fin q.

(** The four conditions an order must meet to be saved. *)
Definition customerSelected (s : State) : Prop := customerId s <> "".
Definition employeeSelected (s : State) : Prop := employeeId s <> "".
Definition hasItems (s : State) : Prop := items s <> [].
Definition allProductsSelected (s : State) : Prop :=
  forall item, In item (items s) -> OrderItem.productId item <> "".

Definition isUpdateOrder (e : Effect) : bool :=
  match e with updateOrder _ _ => true | _ => false end.

(** ** Vocabulary of the statements and sample data *)

(** [item] with its quantity replaced, as [{ ...item, quantity: x }]. *)
Definition withQuantity (x : JS.number) (item : OrderItem.t) : OrderItem.t :=
  {| OrderItem.id := OrderItem.id item;
     OrderItem.productId := OrderItem.productId item;
     OrderItem.productName := OrderItem.productName item;
     OrderItem.quantity := x;
     OrderItem.price := OrderItem.price item;
     OrderItem.details := OrderItem.details item;
     OrderItem.stockAfterOrder := OrderItem.stockAfterOrder item |}.

(** An item with a product selected and one without, both with a quantity
    of 4. *)
Definition keyboard : OrderItem.t :=
  {| OrderItem.id := "i1"; OrderItem.productId := "p1";
     OrderItem.productName := "Keyboard";
     OrderItem.quantity := JS.ofZ 4; OrderItem.price := JS.ofZ 10;
     OrderItem.details := None;
     OrderItem.stockAfterOrder := None |}.

Definition blank : OrderItem.t :=
  {| OrderItem.id := "i2"; OrderItem.productId := "";
     OrderItem.productName := "";
     OrderItem.quantity := JS.ofZ 4; OrderItem.price := JS.zero;
     OrderItem.details := None;
     OrderItem.stockAfterOrder := None |}.

Definition twoRows : State := setItems [keyboard; blank] initialState.

(** An item whose quantity is neither 0 nor [NaN] and whose price is not
    [NaN]: the [|| 1] and [|| 0] of [calculateTotal] leave it as it is. *)
Definition plain (item : OrderItem.t) : Prop :=
  JS.truthy (OrderItem.quantity item) = true
  /\ JS.isNaN (OrderItem.price item) = false.

(** A selected item of price 10 whose quantity is 0. *)
Definition zeroQuantity : OrderItem.t :=
  {| OrderItem.id := "i1"; OrderItem.productId := "p1";
     OrderItem.productName := "Keyboard";
     OrderItem.quantity := JS.zero; OrderItem.price := JS.ofZ 10;
     OrderItem.details := None;
     OrderItem.stockAfterOrder := None |}.

(** At least one of the four conditions is violated. *)
Definition violated (s : State) : Prop :=
  customerId s = "" \/ employeeId s = "" \/ items s = []
  \/ exists item, In item (items s) /\ OrderItem.productId item = "".

(** A run of [handleSubmit] that ended on one of the three validation
    toasts. *)
Definition validationError (r : State * list Effect) : Prop :=
  exists t, In t [customerRequired; employeeRequired; productsRequired]
            /\ snd r = [toast t].

(** A state that passes the four checks, and the same state with the
    product of its only item cleared. *)
Definition filled : State :=
  setEmployeeId "e1" (setCustomerId "c1" (setItems [keyboard] initialState)).

Definition cleared : State :=
  setItems [ {| OrderItem.id := "i1"; OrderItem.productId := "";
                OrderItem.productName := "Keyboard";
                OrderItem.quantity := JS.ofZ 4;
                OrderItem.price := JS.ofZ 10;
                OrderItem.details := None;
                OrderItem.stockAfterOrder := None |} ] filled.

Definition desk : Env :=
  {| id := Some "o1"; order := None;
     customers := [ {| Customer.id := "c1"; Customer.name := "Ann" |} ];
     products := [];
     employees := [ {| Employee.id := "e1"; Employee.name := "Bob";
                       Employee.department := "Sales" |} ] |}.

(** The item [addItem] appends. *)
Definition newItem (uuid : string) : OrderItem.t :=
  {| OrderItem.id := uuid; OrderItem.productId := "";
     OrderItem.productName := ""; OrderItem.quantity := JS.ofZ 1;
     OrderItem.price := JS.ofZ 0;
     OrderItem.details := None;
     OrderItem.stockAfterOrder := None |}.

(** [item] after the selection of [product]. *)
Definition withProduct (product : Product.t) (item : OrderItem.t) : OrderItem.t :=
  {| OrderItem.id := OrderItem.id item;
     OrderItem.productId := Product.id product;
     OrderItem.productName := Product.name product;
     OrderItem.quantity := JS.ofZ 1;
     OrderItem.price := Product.price product;
     OrderItem.details := OrderItem.details item;
     OrderItem.stockAfterOrder := OrderItem.stockAfterOrder item |}.

(** [item] with its price replaced, as [{ ...i, price }]. *)
Definition withPrice (x : JS.number) (item : OrderItem.t) : OrderItem.t :=
  {| OrderItem.id := OrderItem.id item;
     OrderItem.productId := OrderItem.productId item;
     OrderItem.productName := OrderItem.productName item;
     OrderItem.quantity := OrderItem.quantity item;
     OrderItem.price := x;
     OrderItem.details := OrderItem.details item;
     OrderItem.stockAfterOrder := OrderItem.stockAfterOrder item |}.

(** The test of the price input: the parsed value is a number and is not
    below 0. *)
Definition accepted (p : JS.number) : bool :=
  negb (JS.isNaN p) && (p >= JS.zero)%js.

(** Every item of the state has an integer quantity of at least 1. *)
Definition quantitiesValid (s : State) : Prop :=
  Forall (fun item => validQuantity (OrderItem.quantity item)) (items s).

(** The quantity asked of [updateItemQuantity] is a real number. *)
Definition realRequest (e : Edit) : Prop :=
  match e with
  | UpdateItemQuantity _ quantity => real quantity
  | _ => True
  end.

(** The edits of the scenario: two items are added, the first gets the
    product [pid1] and quantity 3, the second the product [pid2] and
    quantity 1. *)
Definition session (u1 u2 pid1 pid2 : string) : list Edit :=
  [ AddItem u1; AddItem u2;
    UpdateItemPrice u1 pid1; UpdateItemQuantity u1 (JS.ofZ 3);
    UpdateItemPrice u2 pid2; UpdateItemQuantity u2 (JS.ofZ 1) ].

(** A row holding [product] at its catalogue price. *)
Definition row (id : string) (product : Product.t) (quantity : Z) : OrderItem.t :=
  {| OrderItem.id := id;
     OrderItem.productId := Product.id product;
     OrderItem.productName := Product.name product;
     OrderItem.quantity := JS.ofZ quantity;
     OrderItem.price := Product.price product;
     OrderItem.details := None;
     OrderItem.stockAfterOrder := None |}.

(** The catalogue of the scenario. *)
Definition p1 : Product.t :=
  {| Product.id := "p1"; Product.name := "Keyboard";
     Product.price := JS.ofZ 10; Product.stock := JS.ofZ 5;
     Product.status := Product.available |}.

Definition p2 : Product.t :=
  {| Product.id := "p2"; Product.name := "Mouse";
     Product.price := JS.ofZ 20; Product.stock := JS.ofZ 1;
     Product.status := Product.available |}.

Definition catalogue : Env :=
  {| id := Some "o1"; order := None; customers := [];
     products := [p1; p2]; employees := [] |}.

(** ** What the rows of the form compute when they render *)

(** Lines 406-408: [order?.items.some((i) => i.id === item.id)], used as a
    condition; without an [order] it is [undefined], which is falsy. *)
Definition isOriginalItem (env : Env) (item : OrderItem.t) : bool :=
  match order env with
  | Some o =>
      existsb (fun i => String.eqb (OrderItem.id i) (OrderItem.id item))
        (Order.items o)
  | None => false
  end.



(** Line 506: the [disabled] attribute of the remove button of a row. *)
Definition removeDisabled (s : State) : bool :=
  Nat.eqb (List.length (items s)) 1.

(** ** Further vocabulary *)

(** [handleSubmit] reaches the data store: the route has an order id [i],
    no submit is in progress, the form passes validation and the selected
    customer [c] and employee [e] are in the lists of the queries. *)
Definition submits (env : Env) (s : State) (i : string) (c : Customer.t)
  (e : Employee.t) : Prop :=
  id env = Some i /\ i <> "" /\ isSubmitting s = false
  /\ validateForm s = None
  /\ find (fun c' => String.eqb (Customer.id c') (customerId s)) (customers env)
     = Some c
  /\ find (fun e' => String.eqb (Employee.id e') (employeeId s)) (employees env)
     = Some e.

(** The selected customer, and the selected employee, is in the list the
    query delivered. *)
Definition customerFound (env : Env) (s : State) : Prop :=
  exists c,
    find (fun c' => String.eqb (Customer.id c') (customerId s)) (customers env)
    = Some c.

Definition employeeFound (env : Env) (s : State) : Prop :=
  exists e,
    find (fun e' => String.eqb (Employee.id e') (employeeId s)) (employees env)
    = Some e.

(** [item] without the optional fields [details] and [stockAfterOrder]. *)
Definition withoutOptional (item : OrderItem.t) : OrderItem.t :=
  {| OrderItem.id := OrderItem.id item;
     OrderItem.productId := OrderItem.productId item;
     OrderItem.productName := OrderItem.productName item;
     OrderItem.quantity := OrderItem.quantity item;
     OrderItem.price := OrderItem.price item;
     OrderItem.details := None;
     OrderItem.stockAfterOrder := None |}.

Definition noOptional (item : OrderItem.t) : Prop :=
  OrderItem.details item = None /\ OrderItem.stockAfterOrder item = None.

(** An item of the store that carries the optional fields, and an order
    holding it. *)
Definition annotated : OrderItem.t :=
  {| OrderItem.id := "i1"; OrderItem.productId := "p1";
     OrderItem.productName := "Keyboard";
     OrderItem.quantity := JS.ofZ 4; OrderItem.price := JS.ofZ 10;
     OrderItem.details := Some "black";
     OrderItem.stockAfterOrder := Some (JS.ofZ 1) |}.

(** A run of [handleSubmit] that refused the form: all it did was to show a
    destructive toast. *)
Definition refused (r : State * list Effect) : Prop :=
  exists t, snd r = [toast t] /\ destructive t = true.

Definition isToast (e : Effect) : bool :=
  match e with toast _ => true | _ => false end.

(** The ids of the items are pairwise distinct. *)
Definition idsDistinct (s : State) : Prop :=
  NoDup (map OrderItem.id (items s)).

(** The id given to [addItem] is not the id of an item of the state. *)
Definition freshRequest (s : State) (e : Edit) : Prop :=
  match e with
  | AddItem uuid => ~ In uuid (map OrderItem.id (items s))
  | _ => True
  end.

(** Every price is a number that is not below 0. *)
Definition pricesAccepted (s : State) : Prop :=
  Forall (fun item => accepted (OrderItem.price item) = true) (items s).

Definition cataloguePricesAccepted (env : Env) : Prop :=
  Forall (fun product => accepted (Product.price product) = true) (products env).

(** No item of the state has the id. *)
Definition absent (id : string) (s : State) : Prop :=
  forall item, In item (items s) -> OrderItem.id item <> id.

(** An order of the store with the two sample rows, and the environment
    that has loaded it. *)
Definition stored : Order.t :=
  {| Order.id := "0a1b2c3d-4e5f"; Order.customerId := "c1";
     Order.customerName := "Ann"; Order.employeeId := "e1";
     Order.employeeName := "Bob"; Order.items := [keyboard];
     Order.total := JS.ofZ 40; Order.status := processing |}.

Definition withAnnotated : Order.t :=
  {| Order.id := "0a1b2c3d-4e5f"; Order.customerId := "c1";
     Order.customerName := "Ann"; Order.employeeId := "e1";
     Order.employeeName := "Bob"; Order.items := [annotated; blank];
     Order.total := JS.ofZ 40; Order.status := pending |}.

Definition office : Env :=
  {| id := Some "0a1b2c3d-4e5f"; order := Some stored;
     customers := [ {| Customer.id := "c1"; Customer.name := "Ann" |} ];
     products := [p1; p2];
     employees := [ {| Employee.id := "e1"; Employee.name := "Bob";
                       Employee.department := "Sales" |} ] |}.

(** The binary64 values of [0.1], [0.2] and [1e308]. *)
Definition tenth : JS.number :=
  JS.Fin (Q2Qc (3602879701896397 # 36028797018963968)).

Definition fifth : JS.number :=
  JS.Fin (Q2Qc (3602879701896397 # 18014398509481984)).

Definition huge : JS.number :=
  JS.Fin (Q2Qc (inject_Z
    100000000000000001097906362944045541740492309677311846336810682903157585404911491537163328978494688899061249669721172515611590283743140088328307009198146046031271664502933027185697489699588559043338384466165001178426897626212945177628091195786707458122783970171784415105291802893207873272974885715430223118336)).

(** ** Facts about the JavaScript operations *)

Section Numbers.

Lemma Fin_ext (p q : Qc) : (p == q)%Q -> JS.Fin p = JS.Fin q.
Proof. intro H. f_equal. now apply Qc_is_canon. Qed.

Lemma ofZ_inj (a b : Z) : JS.ofZ a = JS.ofZ b -> a = b.
Proof.
  unfold JS.ofZ. intro H. injection H as H.
  change (Qred (inject_Z a) = Qred (inject_Z b)) in H.
  assert (E : (inject_Z a == inject_Z b)%Q).
  { rewrite <- (Qred_correct (inject_Z a)), <- (Qred_correct (inject_Z b)).
    rewrite H. reflexivity. }
  unfold Qeq in E. simpl in E. lia.
Qed.

Lemma this_Q2Qc (x : Q) : this (Q2Qc x) = Qred x.
Proof. reflexivity. Qed.

Lemma Qle_bool_ofZ (a b : Z) :
  Qle_bool (Q2Qc (inject_Z a)) (Q2Qc (inject_Z b)) = Z.leb a b.
Proof.
  apply eq_true_iff_eq. rewrite Qle_bool_iff, Z.leb_le, !this_Q2Qc.
  rewrite !Qred_correct, <- Zle_Qle. reflexivity.
Qed.

Lemma max_ofZ (a b : Z) : JS.max (JS.ofZ a) (JS.ofZ b) = JS.ofZ (Z.max a b).
Proof.
  unfold JS.ofZ, JS.max. rewrite Qle_bool_ofZ.
  destruct (Z.leb_spec a b).
  - now rewrite Z.max_r by lia.
  - now rewrite Z.max_l by lia.
Qed.

Lemma floor_Fin (q : Qc) : JS.floor (JS.Fin q) = JS.ofZ (Qfloor q).
Proof. reflexivity. Qed.

(** [Math.max(1, Math.floor(q))] on a real number. *)
Lemma max_1_floor (q : Qc) :
  JS.max JS.one (JS.floor (JS.Fin q)) = JS.ofZ (Z.max 1 (Qfloor q)).
Proof. rewrite floor_Fin. apply max_ofZ. Qed.

Lemma truthy_ofZ (z : Z) : JS.truthy (JS.ofZ z) = negb (Z.eqb z 0).
Proof.
  unfold JS.ofZ, JS.truthy. f_equal. apply eq_true_iff_eq.
  rewrite Qeq_bool_iff, Z.eqb_eq, this_Q2Qc, Qred_correct.
  unfold Qeq. simpl. lia.
Qed.

Lemma validQuantity_truthy (x : JS.number) :
  validQuantity x -> JS.truthy x = true.
Proof.
  intros (z & Hz & ->). rewrite truthy_ofZ.
  destruct (Z.eqb_spec z 0); [lia | reflexivity].
Qed.

Lemma or_truthy (a b : JS.number) : JS.truthy a = true -> (a || b)%js = a.
Proof. unfold JS.or. now intros ->. Qed.

(** [price || 0] is [price] unless the price is [NaN]. *)
Lemma or_zero (a : JS.number) : JS.isNaN a = false -> (a || JS.zero)%js = a.
Proof.
  destruct a as [| | |q]; try reflexivity; try discriminate.
  intros _. unfold JS.or, JS.truthy.
  destruct (Qeq_bool q 0) eqn:E; [|reflexivity]. simpl.
  symmetry. apply Fin_ext. simpl. now apply Qeq_bool_iff in E.
Qed.

Lemma truthyS_false (s : string) : JS.truthyS s = false <-> s = "".
Proof. destruct s; simpl; split; congruence. Qed.

Lemma truthyS_true (s : string) : JS.truthyS s = true <-> s <> "".
Proof. destruct s; simpl; split; congruence. Qed.

End Numbers.

(** ** The [items.map(item => item.id === id ? ... : item)] idiom *)

Section MapById.

Variable f : OrderItem.t -> OrderItem.t.
Variable id : string.

Let update (item : OrderItem.t) : OrderItem.t :=
  if String.eqb (OrderItem.id item) id then f item else item.

Lemma map_by_id_hit (l : list OrderItem.t) (n : nat) (item : OrderItem.t) :
  nth_error l n = Some item -> OrderItem.id item = id ->
  nth_error (map update l) n = Some (f item).
Proof.
  intros Hn E. rewrite nth_error_map, Hn. cbn [option_map]. unfold update.
  apply String.eqb_eq in E. now rewrite E.
Qed.

Lemma map_by_id_miss (l : list OrderItem.t) (n : nat) (item : OrderItem.t) :
  nth_error l n = Some item -> OrderItem.id item <> id ->
  nth_error (map update l) n = Some item.
Proof.
  intros Hn E. rewrite nth_error_map, Hn. cbn [option_map]. unfold update.
  apply String.eqb_neq in E. now rewrite E.
Qed.

End MapById.

(** Closes a goal [x = y] between two closed numbers by evaluation. *)
Ltac js_eval :=
  vm_compute;
  first [ reflexivity | apply Fin_ext; vm_compute; reflexivity ].

(** ** Rounding *)

Section Rounding.

(** [+] and [*] round as binary64 does: [0.1 + 0.2] and [0.1 * 3] are
    [0.30000000000000004], [1e308 * 10] and [1e308 + 1e308] overflow to
    [Infinity], and on small integers the operations are exact. *)
Lemma rounding_examples :
  (tenth + fifth)%js = JS.Fin (Q2Qc (1351079888211149 # 4503599627370496))
  /\ (tenth * JS.ofZ 3)%js = JS.Fin (Q2Qc (1351079888211149 # 4503599627370496))
  /\ (huge * JS.ofZ 10)%js = JS.PosInf
  /\ (huge + huge)%js = JS.PosInf
  /\ (JS.ofZ 10 * JS.ofZ 3 + JS.ofZ 20 * JS.ofZ 1)%js = JS.ofZ 50.
Proof. repeat split; js_eval. Qed.

End Rounding.

(** ** Quantity edit *)

Section QuantityEdit.

(** C1.  For every state, every item of it (at any position [n], with or
    without a product selected) and every real number [q],
    [updateItemQuantity] called with the item's id and [q] leaves at
    position [n] the same item with its quantity set to
    [max(1, floor(q))], which is an integer and at least 1; the items with
    another id are not touched. *)
Theorem updateItemQuantity_max_1_floor :
  forall (s : State) (id : string) (q : Qc) (n : nat) (item : OrderItem.t),
    nth_error (items s) n = Some item ->
    let s' := fst (updateItemQuantity id (JS.Fin q) s) in
    (OrderItem.id item = id ->
     nth_error (items s') n
     = Some (withQuantity (JS.ofZ (Z.max 1 (Qfloor q))) item))
    /\ (OrderItem.id item <> id -> nth_error (items s') n = Some item)
    /\ (1 <= Z.max 1 (Qfloor q))%Z.
Proof.
  intros s id q n item Hn s'. subst s'.
  unfold updateItemQuantity. cbn [fst items setItems setHasChanges].
  rewrite max_1_floor. split; [|split].
  - intro E. now apply (map_by_id_hit (withQuantity _)).
  - intro E. now apply (map_by_id_miss (withQuantity _)).
  - lia.
Qed.

Lemma updateItemQuantity_max_1_floor_witness :
  let s' := fst (updateItemQuantity "i2" (JS.Fin (Q2Qc (-7 # 2))) twoRows) in
  (OrderItem.id blank = "i2" ->
   nth_error (items s') 1
   = Some (withQuantity (JS.ofZ (Z.max 1 (Qfloor (Q2Qc (-7 # 2))))) blank))
  /\ (OrderItem.id blank <> "i2" -> nth_error (items s') 1 = Some blank)
  /\ (1 <= Z.max 1 (Qfloor (Q2Qc (-7 # 2))))%Z.
Proof.
  apply (updateItemQuantity_max_1_floor twoRows "i2" (Q2Qc (-7 # 2)) 1 blank).
  reflexivity.
Defined.

(** Outside the real numbers the rule does not give an integer:
    [Math.max(1, Math.floor(NaN))] is [NaN]. *)
Lemma updateItemQuantity_NaN :
  items (fst (updateItemQuantity "i1" JS.NaN twoRows))
  = [withQuantity JS.NaN keyboard; blank].
Proof. reflexivity. Qed.

(** The quantity input never passes [NaN] or a value below 1 on. *)
Lemma quantityOnChange_guard (item : OrderItem.t) (x : JS.number) (s : State) :
  JS.isNaN x = true \/ (x >= JS.one)%js = false ->
  quantityOnChange item x s = (s, []).
Proof.
  unfold quantityOnChange. intros [-> | ->]; [reflexivity|].
  now rewrite andb_false_r.
Qed.

End QuantityEdit.

(** ** Order total *)

Section Total.

Lemma calculateTotal_from (l : list OrderItem.t) (acc : JS.number) :
  fold_left
    (fun sum item =>
       if negb (JS.truthyS (OrderItem.productId item)) then sum
       else (sum + (OrderItem.price item || JS.zero)
                   * (OrderItem.quantity item || JS.one))%js)
    l acc
  = fold_left JS.add (map lineAmount (filter selected l)) acc.
Proof.
  revert acc. induction l as [|item l IH]; intro acc; [reflexivity|].
  cbn [fold_left filter]. unfold selected at 1.
  destruct (JS.truthyS (OrderItem.productId item)); cbn [negb map fold_left];
    apply IH.
Qed.

Lemma calculateTotal_lineAmounts (s : State) :
  calculateTotal s = sum (map lineAmount (filter selected (items s))).
Proof. apply calculateTotal_from. Qed.

Lemma lineAmount_plain (item : OrderItem.t) :
  plain item ->
  lineAmount item = (OrderItem.price item * OrderItem.quantity item)%js.
Proof.
  intros [Hq Hp]. unfold lineAmount.
  now rewrite (or_truthy (OrderItem.quantity item)), or_zero.
Qed.

(** An item of the data model is [plain]: its quantity, an integer of at
    least 1, is neither 0 nor [NaN], and its price, a number that is not
    below 0, is not [NaN]. *)
Lemma dataModel_plain (item : OrderItem.t) :
  validQuantity (OrderItem.quantity item) ->
  accepted (OrderItem.price item) = true ->
  plain item.
Proof.
  intros Hq Hp. split; [now apply validQuantity_truthy|].
  unfold accepted in Hp. apply andb_true_iff in Hp as [Hp _].
  now apply negb_true_iff.
Qed.

Lemma calculateTotal_plain (s : State) :
  Forall (fun item => selected item = true -> plain item) (items s) ->
  calculateTotal s = computeTotal (items s).
Proof.
  intro Hall. rewrite calculateTotal_lineAmounts. unfold computeTotal.
  f_equal. induction (items s) as [|item l IH]; [reflexivity|].
  inversion Hall as [|? ? Hitem Hl]; subst. cbn [filter].
  destruct (selected item) eqn:E; cbn [map].
  - rewrite lineAmount_plain by auto. f_equal. auto.
  - auto.
Qed.

(** C2.  [calculateTotal] depends on the item sequence only: on equal item
    sequences it returns equal totals.  For every list of line items of the
    data model (every quantity an integer of at least 1, every price a
    number that is not below 0) it returns the sum, first item first, of
    [unitPrice * quantity] over the items with a product selected; this
    needs of the selected items only that the quantity is neither 0 nor
    [NaN] and the price is not [NaN].  An item without a product contributes
    nothing, wherever it stands. *)
Theorem calculateTotal_sum_of_line_amounts :
  forall s : State,
    (forall s' : State, items s' = items s -> calculateTotal s' = calculateTotal s)
    /\ (quantitiesValid s -> pricesAccepted s ->
        calculateTotal s = computeTotal (items s))
    /\ (Forall (fun item => selected item = true -> plain item) (items s) ->
        calculateTotal s = computeTotal (items s))
    /\ (forall l1 item l2,
           items s = (l1 ++ item :: l2)%list ->
           OrderItem.productId item = "" ->
           calculateTotal s = calculateTotal (setItems (l1 ++ l2)%list s)
           /\ computeTotal (items s) = computeTotal (l1 ++ l2)%list).
Proof.
  intro s. split; [|split; [|split]].
  - intros s' E. unfold calculateTotal. now rewrite E.
  - unfold quantitiesValid, pricesAccepted. intros Hq Hp.
    apply calculateTotal_plain. rewrite Forall_forall in *.
    intros item Hin _. apply dataModel_plain; auto.
  - apply calculateTotal_plain.
  - intros l1 item l2 E Hp.
    assert (F : filter selected (l1 ++ item :: l2) = filter selected (l1 ++ l2)).
    { rewrite !filter_app. cbn [filter]. unfold selected at 2. now rewrite Hp. }
    split.
    + rewrite !calculateTotal_lineAmounts, E. cbn [items setItems].
      now rewrite F.
    + rewrite E. unfold computeTotal. now rewrite F.
Qed.

Lemma calculateTotal_sum_of_line_amounts_witness :
  calculateTotal twoRows = computeTotal (items twoRows).
Proof.
  destruct (calculateTotal_sum_of_line_amounts twoRows) as (_ & H & _).
  apply H.
  - repeat constructor; exists 4%Z; (split; [lia | reflexivity]).
  - repeat constructor.
Defined.

(** Outside the data model the two differ: [item.quantity || 1] counts a
    quantity of 0 as 1, so a selected item of price 10 and quantity 0 adds
    10 to the total. *)
Lemma calculateTotal_zero_quantity_counts_as_one :
  calculateTotal (setItems [zeroQuantity] initialState) = JS.ofZ 10
  /\ computeTotal [zeroQuantity] = JS.ofZ 0.
Proof. split; js_eval. Qed.

End Total.

(** ** Checks made before the order is saved *)

Section Submit.

Lemma existsb_unselected (l : list OrderItem.t) :
  existsb (fun item => negb (JS.truthyS (OrderItem.productId item))) l = true
  <-> exists item, In item l /\ OrderItem.productId item = "".
Proof.
  rewrite existsb_exists. split; intros (item & Hin & H); exists item;
    (split; [exact Hin|]).
  - apply truthyS_false. now apply negb_true_iff.
  - apply negb_true_iff. now apply truthyS_false.
Qed.

Lemma validateForm_Some (s : State) :
  (exists t, validateForm s = Some t) <-> violated s.
Proof.
  unfold validateForm, violated.
  destruct (JS.truthyS (customerId s)) eqn:Ec; cbn [negb].
  2:{ apply truthyS_false in Ec. split; eauto. }
  destruct (JS.truthyS (employeeId s)) eqn:Ee; cbn [negb].
  2:{ apply truthyS_false in Ee. split; eauto. }
  apply truthyS_true in Ec, Ee.
  destruct (items s) as [|item l] eqn:Ei; cbn [List.length Nat.eqb orb].
  { split; eauto. }
  destruct (existsb _ (item :: l)) eqn:Ex.
  - apply existsb_unselected in Ex. split; eauto.
  - split; [intros (t & Ht); discriminate|].
    intros [H | [H | [H | H]]]; try congruence.
    apply existsb_unselected in H. congruence.
Qed.

Lemma validateForm_range (s : State) (t : Toast) :
  validateForm s = Some t ->
  In t [customerRequired; employeeRequired; productsRequired].
Proof.
  unfold validateForm.
  repeat match goal with
         | |- context [if ?b then _ else _] => destruct b
         end; intro H; inversion H; subst; simpl; auto.
Qed.

Lemma validateForm_None (s : State) :
  validateForm s = None
  <-> customerSelected s /\ employeeSelected s /\ hasItems s
      /\ allProductsSelected s.
Proof.
  unfold customerSelected, employeeSelected, hasItems, allProductsSelected.
  split.
  - intro HN.
    assert (Hv : ~ violated s).
    { intro Hv. apply validateForm_Some in Hv as (t & Ht). congruence. }
    unfold violated in Hv. repeat split; try (intro; apply Hv; auto; fail).
    intros item Hin Hp. apply Hv. right; right; right. eauto.
  - intros (Hc & He & Hi & Hp).
    destruct (validateForm s) as [t|] eqn:E; [|reflexivity].
    assert (Hv : violated s) by (apply validateForm_Some; eauto).
    destruct Hv as [H | [H | [H | (item & Hin & H)]]]; try contradiction.
    now apply Hp in Hin.
Qed.

(** What [handleSubmit] does once it is past its first line, according to
    the outcome of the validation block. *)
Lemma handleSubmit_validation (env : Env) (store : string -> OrderUpdate -> Reply)
  (s : State) (i : string) :
  id env = Some i -> i <> "" -> isSubmitting s = false ->
  match validateForm s with
  | Some t => handleSubmit env store s = (s, [toast t])
  | None =>
      snd (handleSubmit env store s) = [toast customerNotFound]
      \/ snd (handleSubmit env store s) = [toast employeeNotFound]
      \/ exists body rest,
          snd (handleSubmit env store s) = updateOrder i body :: rest
  end.
Proof.
  intros Hid Hi Hs. unfold handleSubmit. rewrite Hid, Hs.
  apply truthyS_true in Hi. rewrite Hi. cbn [negb orb].
  destruct (validateForm s); [reflexivity|].
  destruct (find _ (customers env)); [|auto].
  destruct (find _ (employees env)); [|auto].
  right; right. cbn [snd]. eauto.
Qed.

(** C3, as stated, fails: the form [filled] has a customer, an employee, an
    item and a product on every item, and [handleSubmit] still refuses it
    before any call of [updateOrder] when the selected customer is not in
    the list of customers (here the list is empty, as it is while the
    customers are being fetched). *)
Lemma handleSubmit_unknown_customer_refused :
  (customerSelected filled /\ employeeSelected filled /\ hasItems filled
   /\ allProductsSelected filled)
  /\ handleSubmit catalogue (fun _ _ => Resolved None) filled
     = (filled, [toast customerNotFound])
  /\ destructive customerNotFound = true
  /\ existsb isUpdateOrder
       (snd (handleSubmit catalogue (fun _ _ => Resolved None) filled)) = false.
Proof.
  split; [|repeat split].
  apply validateForm_None. reflexivity.
Qed.

(** C3, amended.  When a submit is handled (the route has an order id and no
    submit is in progress), [handleSubmit] refuses the form, showing a
    destructive toast and nothing else, exactly when one of the four
    conditions is violated (no customer selected, no employee selected, no
    item, an item without a product) or the selected customer or the
    selected employee is not found in the loaded lists; it calls
    [updateOrder] exactly when the four conditions hold and both are found.
    The toast is one of the three validation toasts exactly when one of the
    four conditions is violated, so an item without a product is always
    refused; the validation block itself passes exactly when the four
    conditions hold. *)
Theorem handleSubmit_refusal_iff :
  forall (env : Env) (store : string -> OrderUpdate -> Reply) (s : State)
         (i : string),
    id env = Some i -> i <> "" -> isSubmitting s = false ->
    (validateForm s = None
     <-> customerSelected s /\ employeeSelected s /\ hasItems s
         /\ allProductsSelected s)
    /\ (validationError (handleSubmit env store s) <-> violated s)
    /\ (refused (handleSubmit env store s)
        <-> violated s \/ ~ customerFound env s \/ ~ employeeFound env s)
    /\ (existsb isUpdateOrder (snd (handleSubmit env store s)) = true
        <-> (customerSelected s /\ employeeSelected s /\ hasItems s
             /\ allProductsSelected s)
            /\ customerFound env s /\ employeeFound env s)
    /\ (forall item, In item (items s) -> OrderItem.productId item = "" ->
        handleSubmit env store s = (s, [toast productsRequired])
        \/ handleSubmit env store s = (s, [toast employeeRequired])
        \/ handleSubmit env store s = (s, [toast customerRequired])).
Proof.
  intros env store s i Hid Hi Hs.
  pose proof (validateForm_None s) as HN.
  pose proof (validateForm_Some s) as HS.
  pose proof (validateForm_range s) as HR.
  unfold validationError, refused, customerFound, employeeFound, handleSubmit.
  rewrite Hid, Hs. apply truthyS_true in Hi. rewrite Hi. cbn [negb orb].
  split; [exact HN|].
  destruct (validateForm s) as [t|] eqn:Hv.
  - assert (Hviol : violated s) by (apply HS; eauto).
    assert (Hfour : ~ (customerSelected s /\ employeeSelected s /\ hasItems s
                       /\ allProductsSelected s))
      by (intro H; apply HN in H; discriminate).
    specialize (HR t eq_refl). cbn [snd existsb isUpdateOrder].
    split; [split; [intros _; exact Hviol | intros _; exists t; auto]|].
    split.
    { split; [intros _; now left|]. intros _. exists t. split; [reflexivity|].
      simpl in HR. destruct HR as [<- | [<- | [<- | []]]]; reflexivity. }
    split.
    { split; [discriminate|]. intros (H & _). contradiction. }
    intros item Hin Hp. simpl in HR.
    destruct HR as [<- | [<- | [<- | []]]]; auto.
  - assert (Hviol : ~ violated s)
      by (intro H; apply HS in H as (t & Ht); discriminate).
    assert (Hfour : customerSelected s /\ employeeSelected s /\ hasItems s
                    /\ allProductsSelected s) by now apply HN.
    assert (Hitem : forall item, In item (items s) ->
                                 OrderItem.productId item = "" -> False).
    { intros item Hin Hp. apply Hviol. right; right; right. eauto. }
    destruct (find _ (customers env)) as [c|] eqn:Hc.
    + destruct (find _ (employees env)) as [e|] eqn:He; cbn [snd].
      * split.
        { split; [intros (t & _ & Ht); discriminate | contradiction]. }
        split.
        { split; [intros (t & Ht & _); discriminate|].
          intros [H | [H | H]]; [contradiction | |]; exfalso; apply H; eauto. }
        split.
        { split; [intros _|reflexivity]. repeat split; try apply Hfour; eauto. }
        intros item Hin Hp. exfalso. eauto.
      * split.
        { split; [|contradiction]. intros (t & Hin & Ht). exfalso.
          injection Ht as <-. simpl in Hin.
          destruct Hin as [H | [H | [H | []]]]; discriminate. }
        split.
        { split.
          - intros _. right; right. intros (e & H). discriminate.
          - intros _. exists employeeNotFound. split; reflexivity. }
        split.
        { split; [discriminate|]. intros (_ & _ & (e & H)). discriminate. }
        intros item Hin Hp. exfalso. eauto.
    + cbn [snd]. split.
      { split; [|contradiction]. intros (t & Hin & Ht). exfalso.
        injection Ht as <-. simpl in Hin.
        destruct Hin as [H | [H | [H | []]]]; discriminate. }
      split.
      { split.
        - intros _. right; left. intros (c & H). discriminate.
        - intros _. exists customerNotFound. split; reflexivity. }
      split.
      { split; [discriminate|]. intros (_ & (c & H) & _). discriminate. }
      intros item Hin Hp. exfalso. eauto.
Qed.

Lemma handleSubmit_refusal_iff_witness :
  (refused (handleSubmit desk (fun _ _ => Thrown) cleared)
   <-> violated cleared \/ ~ customerFound desk cleared
       \/ ~ employeeFound desk cleared)
  /\ (existsb isUpdateOrder (snd (handleSubmit desk (fun _ _ => Thrown) filled))
      = true
      <-> (customerSelected filled /\ employeeSelected filled /\ hasItems filled
           /\ allProductsSelected filled)
          /\ customerFound desk filled /\ employeeFound desk filled).
Proof.
  split.
  - apply (handleSubmit_refusal_iff desk (fun _ _ => Thrown) cleared "o1");
      first [ reflexivity | discriminate ].
  - apply (handleSubmit_refusal_iff desk (fun _ _ => Thrown) filled "o1");
      first [ reflexivity | discriminate ].
Defined.

(** The example of the specification: the filled order passes, and with
    the product cleared it is refused. *)
Lemma validateForm_examples :
  validateForm filled = None /\ validateForm cleared = Some productsRequired.
Proof. split; reflexivity. Qed.

(** C8.  When one of the four conditions is violated, [handleSubmit]
    returns the state it was given, every field of it, and none of its
    effects is a call of [updateOrder]. *)
Theorem handleSubmit_invalid_no_update :
  forall (env : Env) (store : string -> OrderUpdate -> Reply) (s : State),
    violated s ->
    fst (handleSubmit env store s) = s
    /\ existsb isUpdateOrder (snd (handleSubmit env store s)) = false.
Proof.
  intros env store s Hv. apply validateForm_Some in Hv as (t & Ht).
  unfold handleSubmit. destruct (id env) as [i|]; [|split; reflexivity].
  destruct (negb (JS.truthyS i) || isSubmitting s); [split; reflexivity|].
  rewrite Ht. split; reflexivity.
Qed.

Lemma handleSubmit_invalid_no_update_witness :
  fst (handleSubmit desk (fun _ _ => Resolved None) cleared) = cleared
  /\ existsb isUpdateOrder
       (snd (handleSubmit desk (fun _ _ => Resolved None) cleared)) = false.
Proof.
  apply (handleSubmit_invalid_no_update desk (fun _ _ => Resolved None) cleared).
  right; right; right. eexists. split; [left; reflexivity | reflexivity].
Defined.

(** For contrast: the filled order does reach the data store. *)
Lemma handleSubmit_filled_calls_updateOrder :
  existsb isUpdateOrder
    (snd (handleSubmit desk (fun _ _ => Resolved None) filled)) = true.
Proof. reflexivity. Qed.

End Submit.

(** ** Adding and removing items *)

Section AddRemove.

Lemma filter_other_ids (id : string) (l : list OrderItem.t) :
  (forall other, In other l -> OrderItem.id other <> id) ->
  filter (fun item => negb (String.eqb (OrderItem.id item) id)) l = l.
Proof.
  induction l as [|item l IH]; intro H; [reflexivity|].
  cbn [filter].
  assert (E : String.eqb (OrderItem.id item) id = false)
    by (apply String.eqb_neq, H; now left).
  rewrite E. cbn [negb]. f_equal. apply IH. intros other Hin.
  apply H. now right.
Qed.

(** C4.  On a state with exactly one item, [removeItem] returns the state
    unchanged and shows the [cannotRemove] toast, whatever the id.  On a
    state with two or more items of which [item] is the one with the given
    id, it removes [item] and nothing else: the items before and after it
    stay, in their order and with their values, so the count drops by
    one; no toast is shown. *)
Theorem removeItem_last_refused_else_removed :
  forall (s : State) (id : string),
    (forall only, items s = [only] -> removeItem id s = (s, [toast cannotRemove]))
    /\ (forall l1 item l2,
           items s = (l1 ++ item :: l2)%list ->
           OrderItem.id item = id ->
           (forall other, In other (l1 ++ l2)%list -> OrderItem.id other <> id) ->
           (2 <= List.length (items s))%nat ->
           items (fst (removeItem id s)) = (l1 ++ l2)%list
           /\ S (List.length (items (fst (removeItem id s))))
              = List.length (items s)
           /\ snd (removeItem id s) = []).
Proof.
  intros s id. split.
  - intros only E. unfold removeItem. now rewrite E.
  - intros l1 item l2 E Hid Hother Hlen. unfold removeItem.
    destruct (Nat.ltb_spec 1 (List.length (items s))) as [_|Hlt]; [|lia].
    cbn [fst snd items setItems setHasChanges]. rewrite E.
    assert (F : filter (fun it => negb (String.eqb (OrderItem.id it) id))
                  (l1 ++ item :: l2) = (l1 ++ l2)%list).
    { rewrite filter_app. cbn [filter]. rewrite Hid, String.eqb_refl.
      cbn [negb]. rewrite <- filter_app. now apply filter_other_ids. }
    rewrite F. repeat split. rewrite !length_app. cbn [List.length]. lia.
Qed.

Lemma removeItem_last_refused_else_removed_witness :
  removeItem "i1" (setItems [keyboard] initialState)
  = (setItems [keyboard] initialState, [toast cannotRemove])
  /\ items (fst (removeItem "i1" twoRows)) = ([] ++ [blank])%list
  /\ S (List.length (items (fst (removeItem "i1" twoRows))))
     = List.length (items twoRows)
  /\ snd (removeItem "i1" twoRows) = [].
Proof.
  split.
  - apply (removeItem_last_refused_else_removed
             (setItems [keyboard] initialState) "i1") with (only := keyboard).
    reflexivity.
  - apply (removeItem_last_refused_else_removed twoRows "i1")
      with (item := keyboard).
    + reflexivity.
    + reflexivity.
    + simpl. intros other [<- | []]. discriminate.
    + simpl. lia.
Defined.

(** The two cases on concrete states. *)
Lemma removeItem_examples :
  removeItem "i1" (setItems [keyboard] initialState)
  = (setItems [keyboard] initialState, [toast cannotRemove])
  /\ items (fst (removeItem "i1" twoRows)) = [blank].
Proof. split; reflexivity. Qed.




End AddRemove.

(** ** Product selection and price edit *)

Section ProductAndPrice.

(** C5.  When [productId] names [product] in the catalogue,
    [updateItemPrice] leaves, at the position of every item with the given
    id, that item with its [productId], [productName] and [price] set to
    the product's id, name and price and its quantity set to 1, whatever
    the item's quantity was; items with another id are not touched. *)
Theorem updateItemPrice_selects_product :
  forall (env : Env) (s : State) (id productId : string) (product : Product.t)
         (n : nat) (item : OrderItem.t),
    find (fun p => String.eqb (Product.id p) productId) (products env)
    = Some product ->
    nth_error (items s) n = Some item ->
    let s' := fst (updateItemPrice env id productId s) in
    Product.id product = productId
    /\ (OrderItem.id item = id ->
        nth_error (items s') n = Some (withProduct product item)
        /\ OrderItem.quantity (withProduct product item) = JS.ofZ 1)
    /\ (OrderItem.id item <> id -> nth_error (items s') n = Some item).
Proof.
  intros env s id productId product n item Hfind Hn s'. subst s'.
  unfold updateItemPrice. rewrite Hfind.
  cbn [fst items setItems setHasChanges].
  apply find_some in Hfind as [_ Hp]. apply String.eqb_eq in Hp.
  split; [exact Hp|]. split.
  - intro E. split; [|reflexivity].
    now apply (map_by_id_hit (withProduct product)).
  - intro E. now apply (map_by_id_miss (withProduct product)).
Qed.

Lemma updateItemPrice_selects_product_witness :
  let s' := fst (updateItemPrice catalogue "i1" "p2" twoRows) in
  Product.id p2 = "p2"
  /\ (OrderItem.id keyboard = "i1" ->
      nth_error (items s') 0 = Some (withProduct p2 keyboard)
      /\ OrderItem.quantity (withProduct p2 keyboard) = JS.ofZ 1)
  /\ (OrderItem.id keyboard <> "i1" -> nth_error (items s') 0 = Some keyboard).
Proof.
  apply (updateItemPrice_selects_product catalogue twoRows "i1" "p2" p2 0 keyboard);
    reflexivity.
Defined.

Lemma accepted_iff (p : JS.number) :
  accepted p = true
  <-> p = JS.PosInf \/ exists q : Qc, p = JS.Fin q /\ (0 <= q)%Q.
Proof.
  unfold accepted. destruct p as [| | |q]; cbn [JS.isNaN negb andb].
  - split; [discriminate|]. intros [H | (q & H & _)]; discriminate.
  - split; auto.
  - split; [discriminate|]. intros [H | (q & H & _)]; discriminate.
  - unfold JS.ge, JS.zero, JS.ofZ. rewrite Qle_bool_iff, this_Q2Qc, Qred_correct.
    split.
    + intro H. right. exists q. split; [reflexivity | exact H].
    + intros [H | (q' & H & Hq)]; [discriminate|]. now injection H as ->.
Qed.

(** C7.  The price edit of the row of [item] with parsed value [p]: when
    [p] is a number and [p >= 0] every item with the row's id gets price
    [p], its other fields kept, and the other items are not touched;
    otherwise the state is returned unchanged.  Every real [p >= 0],
    however large, and [+Infinity] are accepted; [NaN], the negative
    numbers and [-Infinity] are not. *)
Theorem priceOnChange_accepts_nonnegative :
  forall (s : State) (item : OrderItem.t) (p : JS.number),
    (accepted p = true
     <-> p = JS.PosInf \/ exists q : Qc, p = JS.Fin q /\ (0 <= q)%Q)
    /\ (accepted p = true ->
        forall n i, nth_error (items s) n = Some i ->
          (OrderItem.id i = OrderItem.id item ->
           nth_error (items (fst (priceOnChange item p s))) n
           = Some (withPrice p i))
          /\ (OrderItem.id i <> OrderItem.id item ->
              nth_error (items (fst (priceOnChange item p s))) n = Some i))
    /\ (accepted p = false -> priceOnChange item p s = (s, [])).
Proof.
  intros s item p. split; [apply accepted_iff|].
  unfold priceOnChange. fold (accepted p). split; intros ->; [|reflexivity].
  intros n i Hn. cbn [fst items setItems setHasChanges]. split.
  - intro E. now apply (map_by_id_hit (withPrice p)).
  - intro E. now apply (map_by_id_miss (withPrice p)).
Qed.

Lemma priceOnChange_accepts_nonnegative_witness :
  (OrderItem.id keyboard = OrderItem.id keyboard ->
   nth_error
     (items (fst (priceOnChange keyboard (JS.Fin (Q2Qc (1999 # 100))) twoRows))) 0
   = Some (withPrice (JS.Fin (Q2Qc (1999 # 100))) keyboard))
  /\ priceOnChange keyboard (JS.Fin (Q2Qc (-1 # 100))) twoRows = (twoRows, []).
Proof.
  split.
  - apply (priceOnChange_accepts_nonnegative twoRows keyboard
             (JS.Fin (Q2Qc (1999 # 100)))); reflexivity.
  - apply (priceOnChange_accepts_nonnegative twoRows keyboard
             (JS.Fin (Q2Qc (-1 # 100)))); reflexivity.
Defined.

End ProductAndPrice.

(** ** The quantity invariant *)

Section Invariant.

Lemma validQuantity_one : validQuantity JS.one.
Proof. exists 1%Z. split; [lia | reflexivity]. Qed.

Lemma validQuantity_max_1_floor (q : Qc) :
  validQuantity (JS.max JS.one (JS.floor (JS.Fin q))).
Proof. rewrite max_1_floor. eexists. split; [|reflexivity]. lia. Qed.

(** C10.  If every item has an integer quantity of at least 1, then after
    [addItem], [removeItem], [updateItemPrice], [updateItemQuantity] with a
    real-number request, or a price edit, every item still has an integer
    quantity of at least 1. *)
Theorem edit_keeps_quantities_valid :
  forall (env : Env) (e : Edit) (s : State),
    quantitiesValid s -> realRequest e ->
    quantitiesValid (fst (edit env e s)).
Proof.
  unfold quantitiesValid. intros env e s Hs He.
  destruct e as [uuid | id | id productId | id quantity | item price];
    cbn [edit].
  - unfold addItem. cbn [fst items setItems setHasChanges].
    apply Forall_app. split; [exact Hs|]. constructor; [|constructor].
    apply validQuantity_one.
  - unfold removeItem. destruct (Nat.ltb 1 (List.length (items s)));
      cbn [fst items setItems setHasChanges]; [|exact Hs].
    rewrite Forall_forall in *. intros item Hin.
    apply filter_In in Hin as [Hin _]. now apply Hs.
  - unfold updateItemPrice. destruct (find _ (products env)); [|exact Hs].
    cbn [fst items setItems setHasChanges]. apply Forall_map.
    eapply Forall_impl; [|exact Hs]. intros item Hitem. cbv beta.
    destruct (String.eqb (OrderItem.id item) id); [|exact Hitem].
    apply validQuantity_one.
  - destruct He as (q & ->). unfold updateItemQuantity.
    cbn [fst items setItems setHasChanges]. apply Forall_map.
    eapply Forall_impl; [|exact Hs]. intros item Hitem. cbv beta.
    destruct (String.eqb (OrderItem.id item) id); [|exact Hitem].
    apply validQuantity_max_1_floor.
  - unfold priceOnChange.
    destruct (negb (JS.isNaN price) && (price >= JS.zero)%js); [|exact Hs].
    cbn [fst items setItems setHasChanges]. apply Forall_map.
    eapply Forall_impl; [|exact Hs]. intros i Hi. cbv beta.
    destruct (String.eqb (OrderItem.id i) (OrderItem.id item)); exact Hi.
Qed.

Lemma twoRows_valid : quantitiesValid twoRows.
Proof.
  repeat constructor; exists 4%Z; (split; [lia | reflexivity]).
Qed.

Lemma edit_keeps_quantities_valid_witness :
  quantitiesValid
    (fst (edit catalogue (UpdateItemQuantity "i1" (JS.Fin (Q2Qc (-5 # 2)))) twoRows)).
Proof.
  apply (edit_keeps_quantities_valid catalogue
           (UpdateItemQuantity "i1" (JS.Fin (Q2Qc (-5 # 2)))) twoRows).
  - exact twoRows_valid.
  - exists (Q2Qc (-5 # 2)). reflexivity.
Defined.

(** A request that is not a real number is outside the rule:
    [updateItemQuantity] stores [NaN] as it is. *)
Lemma updateItemQuantity_NaN_not_valid :
  ~ quantitiesValid (fst (edit catalogue (UpdateItemQuantity "i1" JS.NaN) twoRows)).
Proof.
  intro H. inversion H as [|? ? (z & _ & Hz) _]. discriminate.
Qed.

End Invariant.

(** ** A complete editing session *)

Section Scenario.

Lemma maxQuantity_row (env : Env) (id : string) (product : Product.t) (n : Z) :
  find (fun p => String.eqb (Product.id p) (Product.id product)) (products env)
  = Some product ->
  maxQuantity env (row id product n) = (Product.stock product || JS.zero)%js.
Proof. unfold maxQuantity. cbn [row OrderItem.productId]. now intros ->. Qed.

(** C6.  From a state without items, adding two items, selecting for the
    first a product of price 10 and stock 5 and setting its quantity to 3,
    then selecting for the second a product of price 20 and stock 1 and
    setting its quantity to 1 (the ceiling [maxQuantity] gives for that
    row) leaves the two rows with quantities 3 and 1, and
    [calculateTotal] returns 50. *)
Theorem session_total_50 :
  forall (env : Env) (s : State) (u1 u2 pid1 pid2 : string)
         (product1 product2 : Product.t),
    items s = [] ->
    u1 <> u2 ->
    pid1 <> "" -> pid2 <> "" ->
    find (fun p => String.eqb (Product.id p) pid1) (products env) = Some product1 ->
    find (fun p => String.eqb (Product.id p) pid2) (products env) = Some product2 ->
    Product.price product1 = JS.ofZ 10 -> Product.stock product1 = JS.ofZ 5 ->
    Product.price product2 = JS.ofZ 20 -> Product.stock product2 = JS.ofZ 1 ->
    let s' := edits env (session u1 u2 pid1 pid2) s in
    items s' = [row u1 product1 3; row u2 product2 1]
    /\ maxQuantity env (row u2 product2 1) = JS.ofZ 1
    /\ calculateTotal s' = JS.ofZ 50.
Proof.
  intros env s u1 u2 pid1 pid2 product1 product2 Hs Hu H1 H2 F1 F2 P1 S1 P2 S2 s'.
  assert (I1 : Product.id product1 = pid1)
    by (apply find_some in F1 as [_ E]; now apply String.eqb_eq in E).
  assert (I2 : Product.id product2 = pid2)
    by (apply find_some in F2 as [_ E]; now apply String.eqb_eq in E).
  assert (E12 : String.eqb u1 u2 = false) by now apply String.eqb_neq.
  assert (E21 : String.eqb u2 u1 = false)
    by (apply String.eqb_neq; congruence).
  assert (Hitems : items s' = [row u1 product1 3; row u2 product2 1]).
  { subst s'. unfold edits, session. cbn [fold_left edit].
    unfold updateItemQuantity, updateItemPrice, addItem.
    cbn [fst items setItems setHasChanges]. rewrite F1, F2, Hs.
    cbn [fst items setItems setHasChanges app map].
    repeat (rewrite ?String.eqb_refl, ?E12, ?E21;
            cbn [OrderItem.id OrderItem.productId OrderItem.productName
                 OrderItem.price OrderItem.quantity]).
    unfold JS.ofZ at 1 2. rewrite !floor_Fin.
    change JS.one with (JS.ofZ 1). rewrite !max_ofZ. reflexivity. }
  split; [exact Hitems|]. split.
  - rewrite maxQuantity_row by now rewrite I2. rewrite S2. js_eval.
  - rewrite calculateTotal_lineAmounts, Hitems. cbn [filter].
    unfold selected, row. cbn [OrderItem.productId]. rewrite I1, I2.
    apply truthyS_true in H1, H2. rewrite H1, H2.
    unfold lineAmount. cbn [map OrderItem.price OrderItem.quantity].
    rewrite P1, P2. js_eval.
Qed.

Lemma session_total_50_witness :
  let s' := edits catalogue (session "item1" "item2" "p1" "p2") initialState in
  items s' = [row "item1" p1 3; row "item2" p2 1]
  /\ maxQuantity catalogue (row "item2" p2 1) = JS.ofZ 1
  /\ calculateTotal s' = JS.ofZ 50.
Proof.
  apply (session_total_50 catalogue initialState "item1" "item2" "p1" "p2" p1 p2);
    first [ reflexivity | discriminate ].
Defined.

End Scenario.

(** ** Saving: what [handleSubmit] does beyond the validation *)

Section Commit.

Lemma setIsSubmitting_restored (s : State) :
  isSubmitting s = false -> setIsSubmitting false (setIsSubmitting true s) = s.
Proof. destruct s. cbn. now intros ->. Qed.

Lemma guard_passes (i : string) (s : State) :
  negb (JS.truthyS i) || isSubmitting s = false
  <-> i <> "" /\ isSubmitting s = false.
Proof.
  rewrite orb_false_iff, negb_false_iff, truthyS_true. reflexivity.
Qed.

(** The effects of a run that reaches the data store. *)
Lemma handleSubmit_submits (env : Env) (store : string -> OrderUpdate -> Reply)
  (s : State) (i : string) (c : Customer.t) (e : Employee.t) :
  submits env s i c e ->
  exists after,
    snd (handleSubmit env store s) = updateOrder i (orderUpdate c e s) :: after
    /\ existsb isUpdateOrder after = false
    /\ List.length (filter isToast after) = 1%nat
    /\ ((exists o, store i (orderUpdate c e s) = Resolved (Some o)
                   /\ after = [ invalidateQueries ["orders"];
                                invalidateQueries ["order"; i];
                                toast (orderUpdated o);
                                navigate ("/orders/" ++ i) ])
        \/ ((store i (orderUpdate c e s) = Resolved None
             \/ store i (orderUpdate c e s) = Thrown)
            /\ after = [ console_error "Error updating order:";
                         toast updateFailed ])).
Proof.
  intros (Hid & Hi & Hs & Hv & Hc & He). unfold handleSubmit.
  rewrite Hid. destruct (guard_passes i s) as [_ G]. rewrite (G (conj Hi Hs)).
  rewrite Hv, Hc, He. cbn [snd].
  destruct (store i (orderUpdate c e s)) as [[o|]|] eqn:R;
    eexists; (split; [reflexivity|]); repeat split; eauto.
Qed.

(** The effects of a run that does not reach it. *)
Lemma handleSubmit_refuses (env : Env) (store : string -> OrderUpdate -> Reply)
  (s : State) :
  (forall i c e, ~ submits env s i c e) ->
  snd (handleSubmit env store s) = []
  \/ exists t, snd (handleSubmit env store s) = [toast t].
Proof.
  intro H. unfold handleSubmit. destruct (id env) as [i|] eqn:Hid; [|now left].
  destruct (negb (JS.truthyS i) || isSubmitting s) eqn:G; [now left|].
  apply guard_passes in G as [Hi Hs].
  destruct (validateForm s) eqn:Hv; [right; eexists; reflexivity|].
  destruct (find _ (customers env)) as [c|] eqn:Hc;
    [|right; eexists; reflexivity].
  destruct (find _ (employees env)) as [e|] eqn:He;
    [|right; eexists; reflexivity].
  exfalso. apply (H i c e). repeat split; assumption.
Qed.

(** X1.  After a run of [handleSubmit] the form state is the one the run
    started from, whatever the store replied: the items, the customer, the
    employee, the status, [hasChanges] and [isSubmitting] have the values
    they had.  After every run that had an effect (a toast, a call of the
    store) [isSubmitting] is false. *)
Theorem handleSubmit_state_restored :
  forall (env : Env) (store : string -> OrderUpdate -> Reply) (s : State),
    fst (handleSubmit env store s) = s
    /\ (snd (handleSubmit env store s) <> [] ->
        isSubmitting (fst (handleSubmit env store s)) = false).
Proof.
  intros env store s. unfold handleSubmit.
  destruct (id env) as [i|]; [|split; [reflexivity | contradiction]].
  destruct (negb (JS.truthyS i) || isSubmitting s) eqn:G;
    [split; [reflexivity | contradiction]|].
  apply guard_passes in G as [_ Hs].
  destruct (validateForm s); [split; [reflexivity | intros _; exact Hs]|].
  destruct (find _ (customers env));
    [|split; [reflexivity | intros _; exact Hs]].
  destruct (find _ (employees env));
    [|split; [reflexivity | intros _; exact Hs]].
  cbn [fst]. split; [now apply setIsSubmitting_restored | reflexivity].
Qed.

(** X2.  [handleSubmit] calls [updateOrder] exactly when the route has a
    non-empty order id, no submit is in progress, the form passes validation
    and the selected customer and employee are found in the loaded lists;
    it then calls it once, before anything else, with the route id and the
    body built from the form. *)
Theorem handleSubmit_calls_updateOrder_iff :
  forall (env : Env) (store : string -> OrderUpdate -> Reply) (s : State),
    (existsb isUpdateOrder (snd (handleSubmit env store s)) = true
     <-> exists i c e, submits env s i c e)
    /\ (forall i c e, submits env s i c e ->
          filter isUpdateOrder (snd (handleSubmit env store s))
          = [updateOrder i (orderUpdate c e s)]
          /\ hd_error (snd (handleSubmit env store s))
             = Some (updateOrder i (orderUpdate c e s))).
Proof.
  intros env store s. split.
  - split.
    + intro H. unfold handleSubmit in H.
      destruct (id env) as [i|] eqn:Hid; [|discriminate].
      destruct (negb (JS.truthyS i) || isSubmitting s) eqn:G; [discriminate|].
      apply guard_passes in G as [Hi Hs].
      destruct (validateForm s) eqn:Hv; [discriminate|].
      destruct (find _ (customers env)) as [c|] eqn:Hc; [|discriminate].
      destruct (find _ (employees env)) as [e|] eqn:He; [|discriminate].
      exists i, c, e. repeat split; assumption.
    + intros (i & c & e & H).
      destruct (handleSubmit_submits env store s i c e H) as (after & -> & _).
      reflexivity.
  - intros i c e H.
    destruct (handleSubmit_submits env store s i c e H)
      as (after & -> & Hafter & _).
    split; [|reflexivity]. cbn [filter isUpdateOrder]. f_equal.
    clear - Hafter. induction after as [|x after IH]; [reflexivity|].
    cbn [existsb] in Hafter. apply orb_false_iff in Hafter as [Hx Hafter].
    cbn [filter]. rewrite Hx. auto.
Qed.

Lemma handleSubmit_calls_updateOrder_iff_witness :
  filter isUpdateOrder (snd (handleSubmit office (fun _ _ => Thrown) filled))
  = [updateOrder "0a1b2c3d-4e5f"
       (orderUpdate {| Customer.id := "c1"; Customer.name := "Ann" |}
          {| Employee.id := "e1"; Employee.name := "Bob";
             Employee.department := "Sales" |} filled)]
  /\ hd_error (snd (handleSubmit office (fun _ _ => Thrown) filled))
     = Some (updateOrder "0a1b2c3d-4e5f"
               (orderUpdate {| Customer.id := "c1"; Customer.name := "Ann" |}
                  {| Employee.id := "e1"; Employee.name := "Bob";
                     Employee.department := "Sales" |} filled)).
Proof.
  apply (handleSubmit_calls_updateOrder_iff office (fun _ _ => Thrown) filled).
  repeat split; try reflexivity. discriminate.
Defined.

(** X3.  [handleSubmit] navigates only after [updateOrder] resolved to an
    order, and then to [/orders/<route id>]: a refused form, a reply without
    an order and a thrown error never leave the page. *)
Theorem handleSubmit_navigates_only_on_success :
  forall (env : Env) (store : string -> OrderUpdate -> Reply) (s : State)
         (path : string),
    In (navigate path) (snd (handleSubmit env store s))
    <-> exists i c e o,
          submits env s i c e
          /\ store i (orderUpdate c e s) = Resolved (Some o)
          /\ path = "/orders/" ++ i.
Proof.
  intros env store s path. split.
  - intro Hin. unfold handleSubmit in Hin.
    destruct (id env) as [i|] eqn:Hid; [|destruct Hin].
    destruct (negb (JS.truthyS i) || isSubmitting s) eqn:G; [destruct Hin|].
    apply guard_passes in G as [Hi Hs].
    destruct (validateForm s) eqn:Hv;
      [destruct Hin as [H|[]]; discriminate|].
    destruct (find _ (customers env)) as [c|] eqn:Hc;
      [|destruct Hin as [H|[]]; discriminate].
    destruct (find _ (employees env)) as [e|] eqn:He;
      [|destruct Hin as [H|[]]; discriminate].
    cbn [snd] in Hin.
    destruct (store i (orderUpdate c e s)) as [[o|]|] eqn:R; simpl in Hin;
      repeat (destruct Hin as [Hin | Hin]; try discriminate); try contradiction.
    injection Hin as <-. exists i, c, e, o. repeat split; assumption.
  - intros (i & c & e & o & H & R & ->).
    destruct (handleSubmit_submits env store s i c e H)
      as (after & -> & _ & _ & [(o' & _ & ->) | ([R' | R'] & _)]);
      [do 4 right; left; reflexivity | congruence | congruence].
Qed.

(** X4.  Whenever [handleSubmit] gets past its first line (an order id in
    the route, no submit in progress) it shows exactly one toast: the
    refusal, the success or the failure.  Otherwise it does nothing at
    all. *)
Theorem handleSubmit_one_toast :
  forall (env : Env) (store : string -> OrderUpdate -> Reply) (s : State),
    (forall i, id env = Some i -> i <> "" -> isSubmitting s = false ->
               List.length (filter isToast (snd (handleSubmit env store s))) = 1%nat)
    /\ (id env = None \/ id env = Some "" \/ isSubmitting s = true ->
        handleSubmit env store s = (s, [])).
Proof.
  intros env store s. split.
  - intros i Hid Hi Hs. unfold handleSubmit. rewrite Hid.
    destruct (guard_passes i s) as [_ G]. rewrite (G (conj Hi Hs)).
    destruct (validateForm s); [reflexivity|].
    destruct (find _ (customers env)); [|reflexivity].
    destruct (find _ (employees env)); [|reflexivity].
    cbn [snd]. destruct (store _ _) as [[o|]|]; reflexivity.
  - unfold handleSubmit. intros [-> | [-> | Hs]]; [reflexivity | reflexivity |].
    destruct (id env); [|reflexivity]. now rewrite Hs, orb_true_r.
Qed.

Lemma handleSubmit_one_toast_witness :
  List.length
    (filter isToast (snd (handleSubmit office (fun _ _ => Resolved None) filled)))
  = 1%nat
  /\ handleSubmit office (fun _ _ => Thrown) (setIsSubmitting true filled)
     = (setIsSubmitting true filled, []).
Proof.
  split.
  - apply (handleSubmit_one_toast office (fun _ _ => Resolved None) filled)
      with (i := "0a1b2c3d-4e5f"); first [ reflexivity | discriminate ].
  - apply (handleSubmit_one_toast office (fun _ _ => Thrown)
             (setIsSubmitting true filled)).
    right; right; reflexivity.
Defined.

End Commit.

(** ** The body sent to the store, and loading an order *)

Section Body.

Lemma orS_empty (x : string) : JS.orS x "" = x.
Proof. now destruct x. Qed.

Lemma filter_map_same {A : Type} (p : A -> bool) (f : A -> A) (l : list A) :
  (forall x, p (f x) = p x) -> filter p (map f l) = map f (filter p l).
Proof.
  intro H. induction l as [|x l IH]; [reflexivity|].
  cbn [map filter]. rewrite H. destruct (p x); cbn [map]; now rewrite IH.
Qed.

Lemma sent_items_selected (l : list OrderItem.t) :
  filter selected
    (map (fun item =>
            {| OrderItem.id := OrderItem.id item;
               OrderItem.productId := OrderItem.productId item;
               OrderItem.productName := JS.orS (OrderItem.productName item) "";
               OrderItem.quantity := (OrderItem.quantity item || JS.one)%js;
               OrderItem.price := (OrderItem.price item || JS.zero)%js;
               OrderItem.details := None;
               OrderItem.stockAfterOrder := None |}) l)
  = map (fun item =>
           {| OrderItem.id := OrderItem.id item;
              OrderItem.productId := OrderItem.productId item;
              OrderItem.productName := JS.orS (OrderItem.productName item) "";
              OrderItem.quantity := (OrderItem.quantity item || JS.one)%js;
              OrderItem.price := (OrderItem.price item || JS.zero)%js;
              OrderItem.details := None;
              OrderItem.stockAfterOrder := None |})
      (filter selected l).
Proof.
  apply filter_map_same. reflexivity.
Qed.

(** X5.  The total sent to the store agrees with the items sent with it:
    it is the sum of [price * quantity] over the sent items that have a
    product, because the items are sent with the same [|| 1] and [|| 0]
    defaults that [calculateTotal] applies. *)
Theorem orderUpdate_total_of_sent_items :
  forall (customer : Customer.t) (employee : Employee.t) (s : State),
    u_total (orderUpdate customer employee s)
    = computeTotal (u_items (orderUpdate customer employee s)).
Proof.
  intros customer employee s. cbn [u_total u_items orderUpdate].
  rewrite calculateTotal_lineAmounts. unfold computeTotal.
  rewrite sent_items_selected, map_map. reflexivity.
Qed.

(** X6.  Loading an order and saving it without an edit sends the order's
    own customer id, employee id and status, and its items with their ids,
    products and names in the same order.  The optional fields [details]
    and [stockAfterOrder] of an item are never sent.  When no item has a
    quantity of 0 or [NaN] or a [NaN] price, each item is sent with its own
    five fields; it is sent exactly as loaded when it carried no optional
    field.  After the load [hasChanges] is false. *)
Theorem loadOrder_orderUpdate_round_trip :
  forall (o : Order.t) (s : State) (customer : Customer.t)
         (employee : Employee.t),
    let body := orderUpdate customer employee (loadOrder o s) in
    u_customerId body = Order.customerId o
    /\ u_employeeId body = Order.employeeId o
    /\ u_status body = Order.status o
    /\ map OrderItem.id (u_items body) = map OrderItem.id (Order.items o)
    /\ map OrderItem.productId (u_items body)
       = map OrderItem.productId (Order.items o)
    /\ map OrderItem.productName (u_items body)
       = map OrderItem.productName (Order.items o)
    /\ Forall noOptional (u_items body)
    /\ (Forall plain (Order.items o) ->
        u_items body = map withoutOptional (Order.items o))
    /\ (Forall plain (Order.items o) -> Forall noOptional (Order.items o) ->
        u_items body = Order.items o)
    /\ hasChanges (loadOrder o s) = false.
Proof.
  intros o s customer employee body. subst body.
  cbn [orderUpdate loadOrder u_customerId u_employeeId u_status u_items
       customerId employeeId status items hasChanges
       setItems setCustomerId setEmployeeId setStatus setHasChanges].
  rewrite !orS_empty, !map_map. cbn [OrderItem.id OrderItem.productId
                                     OrderItem.productName].
  assert (Hsent : Forall plain (Order.items o) ->
            map (fun item =>
                   {| OrderItem.id := OrderItem.id item;
                      OrderItem.productId := OrderItem.productId item;
                      OrderItem.productName :=
                        JS.orS (OrderItem.productName item) "";
                      OrderItem.quantity := (OrderItem.quantity item || JS.one)%js;
                      OrderItem.price := (OrderItem.price item || JS.zero)%js;
                      OrderItem.details := None;
                      OrderItem.stockAfterOrder := None |}) (Order.items o)
            = map withoutOptional (Order.items o)).
  { intro Hplain. apply map_ext_in. intros item Hin.
    rewrite Forall_forall in Hplain. destruct (Hplain item Hin) as [Hq Hp].
    unfold withoutOptional.
    now rewrite orS_empty, (or_truthy _ _ Hq), (or_zero _ Hp). }
  split; [reflexivity|]. split; [reflexivity|]. split; [reflexivity|].
  split; [reflexivity|]. split; [reflexivity|].
  split; [apply map_ext; intro item; apply orS_empty|].
  split; [apply Forall_map, Forall_forall; intros item _; split; reflexivity|].
  split; [exact Hsent|]. split; [|reflexivity].
  intros Hplain Hno. rewrite (Hsent Hplain).
  rewrite <- (map_id (Order.items o)) at 2. apply map_ext_in.
  intros item Hin. rewrite Forall_forall in Hno.
  destruct (Hno item Hin) as [Hd Hst]. destruct item. cbn in *. now subst.
Qed.

Lemma loadOrder_orderUpdate_round_trip_witness :
  u_items
    (orderUpdate {| Customer.id := "c1"; Customer.name := "Ann" |}
       {| Employee.id := "e1"; Employee.name := "Bob";
          Employee.department := "Sales" |}
       (loadOrder withAnnotated initialState))
  = map withoutOptional (Order.items withAnnotated)
  /\ u_items
       (orderUpdate {| Customer.id := "c1"; Customer.name := "Ann" |}
          {| Employee.id := "e1"; Employee.name := "Bob";
             Employee.department := "Sales" |} (loadOrder stored initialState))
     = Order.items stored.
Proof.
  split.
  - destruct (loadOrder_orderUpdate_round_trip withAnnotated initialState
                {| Customer.id := "c1"; Customer.name := "Ann" |}
                {| Employee.id := "e1"; Employee.name := "Bob";
                   Employee.department := "Sales" |})
      as (_ & _ & _ & _ & _ & _ & _ & H & _).
    apply H. repeat constructor.
  - destruct (loadOrder_orderUpdate_round_trip stored initialState
                {| Customer.id := "c1"; Customer.name := "Ann" |}
                {| Employee.id := "e1"; Employee.name := "Bob";
                   Employee.department := "Sales" |})
      as (_ & _ & _ & _ & _ & _ & _ & _ & H & _).
    apply H; repeat constructor.
Defined.

Ltac first_failure :=
  intros;
  repeat match goal with
         | H : _ /\ _ |- _ => destruct H
         | H : _ \/ _ |- _ => destruct H
         end;
  try discriminate; try contradiction; try congruence; eauto.

(** X7.  The validation reports the first check that fails, in the order
    customer, employee, products: the customer toast whenever no customer is
    selected, the employee toast only when a customer is selected, and the
    products toast only when both are selected and the item list is empty
    or holds an item without a product. *)
Theorem validateForm_first_failure :
  forall s : State,
    (validateForm s = Some customerRequired <-> customerId s = "")
    /\ (validateForm s = Some employeeRequired
        <-> customerId s <> "" /\ employeeId s = "")
    /\ (validateForm s = Some productsRequired
        <-> customerId s <> "" /\ employeeId s <> ""
            /\ (items s = []
                \/ exists item, In item (items s)
                                /\ OrderItem.productId item = "")).
Proof.
  intro s. unfold validateForm.
  destruct (JS.truthyS (customerId s)) eqn:Ec; cbn [negb].
  2:{ apply truthyS_false in Ec. repeat split; first_failure. }
  apply truthyS_true in Ec.
  destruct (JS.truthyS (employeeId s)) eqn:Ee; cbn [negb].
  2:{ apply truthyS_false in Ee. repeat split; first_failure. }
  apply truthyS_true in Ee.
  destruct (items s) as [|item l] eqn:Ei; cbn [List.length Nat.eqb orb].
  { repeat split; first_failure. }
  destruct (existsb _ (item :: l)) eqn:Ex.
  - apply existsb_unselected in Ex. repeat split; first_failure.
  - assert (Hno : ~ exists i, In i (item :: l) /\ OrderItem.productId i = "").
    { intro H. apply existsb_unselected in H. congruence. }
    repeat split; first_failure.
Qed.

End Body.

(** ** What every edit keeps *)

Section Edits.

Lemma map_by_id_ids (f : OrderItem.t -> OrderItem.t) (id : string)
  (l : list OrderItem.t) :
  (forall item, OrderItem.id (f item) = OrderItem.id item) ->
  map OrderItem.id
    (map (fun item => if String.eqb (OrderItem.id item) id then f item else item) l)
  = map OrderItem.id l.
Proof.
  intro H. rewrite map_map. apply map_ext. intro item.
  destruct (String.eqb (OrderItem.id item) id); [apply H | reflexivity].
Qed.

Lemma map_by_id_absent (f : OrderItem.t -> OrderItem.t) (id : string)
  (l : list OrderItem.t) :
  (forall item, In item l -> OrderItem.id item <> id) ->
  map (fun item => if String.eqb (OrderItem.id item) id then f item else item) l
  = l.
Proof.
  intro H. induction l as [|item l IH]; [reflexivity|]. cbn [map].
  assert (E : String.eqb (OrderItem.id item) id = false)
    by (apply String.eqb_neq, H; now left).
  rewrite E, IH; [reflexivity|]. intros other Hin. apply H. now right.
Qed.

(** The ids of the items after an edit: the same ids, with the new id at
    the end after [addItem] and without the removed id after [removeItem]. *)
Lemma edit_ids (env : Env) (e : Edit) (s : State) :
  map OrderItem.id (items (fst (edit env e s)))
  = match e with
    | AddItem uuid => (map OrderItem.id (items s) ++ [uuid])%list
    | RemoveItem id =>
        if Nat.ltb 1 (List.length (items s))
        then filter (fun x => negb (String.eqb x id)) (map OrderItem.id (items s))
        else map OrderItem.id (items s)
    | _ => map OrderItem.id (items s)
    end.
Proof.
  destruct e as [uuid | id | id productId | id quantity | item price];
    cbn [edit].
  - unfold addItem. cbn [fst items setItems setHasChanges].
    now rewrite map_app.
  - unfold removeItem. destruct (Nat.ltb 1 (List.length (items s)));
      cbn [fst items setItems setHasChanges]; [|reflexivity].
    induction (items s) as [|item l IH]; [reflexivity|]. cbn [filter map].
    destruct (String.eqb (OrderItem.id item) id); cbn [negb map]; now rewrite IH.
  - unfold updateItemPrice. destruct (find _ (products env)); [|reflexivity].
    cbn [fst items setItems setHasChanges]. now apply map_by_id_ids.
  - unfold updateItemQuantity. cbn [fst items setItems setHasChanges].
    now apply map_by_id_ids.
  - unfold priceOnChange.
    destruct (negb (JS.isNaN price) && (price >= JS.zero)%js); [|reflexivity].
    cbn [fst items setItems setHasChanges]. now apply map_by_id_ids.
Qed.

(** X8.  An edit of the item list never touches the customer, the employee,
    the status or [isSubmitting].  It either returns the state exactly as it
    was (a refused removal, an unknown product, a rejected price) or raises
    [hasChanges]; the only effect an edit can have is the toast of the
    refused removal. *)
Theorem edit_frame :
  forall (env : Env) (e : Edit) (s : State),
    let s' := fst (edit env e s) in
    customerId s' = customerId s
    /\ employeeId s' = employeeId s
    /\ status s' = status s
    /\ isSubmitting s' = isSubmitting s
    /\ (s' = s \/ hasChanges s' = true)
    /\ (snd (edit env e s) = []
        \/ (s' = s /\ snd (edit env e s) = [toast cannotRemove])).
Proof.
  intros env e s s'. subst s'.
  destruct e as [uuid | id | id productId | id quantity | item price];
    cbn [edit].
  - unfold addItem. cbn. repeat split; auto.
  - unfold removeItem. destruct (Nat.ltb 1 (List.length (items s))); cbn;
      repeat split; auto.
  - unfold updateItemPrice. destruct (find _ (products env)); cbn;
      repeat split; auto.
  - unfold updateItemQuantity. cbn. repeat split; auto.
  - unfold priceOnChange.
    destruct (negb (JS.isNaN price) && (price >= JS.zero)%js); cbn;
      repeat split; auto.
Qed.

(** X9.  An edit addressed to an id that no item has leaves the item list
    as it is: nothing is removed, no product is set, no quantity and no
    price is changed. *)
Theorem edit_absent_id_keeps_items :
  forall (env : Env) (s : State) (id : string),
    absent id s ->
    items (fst (removeItem id s)) = items s
    /\ (forall productId, items (fst (updateItemPrice env id productId s)) = items s)
    /\ (forall quantity, items (fst (updateItemQuantity id quantity s)) = items s)
    /\ (forall item price,
           OrderItem.id item = id ->
           items (fst (priceOnChange item price s)) = items s).
Proof.
  intros env s id Habs. unfold absent in Habs. repeat split.
  - unfold removeItem. destruct (Nat.ltb 1 (List.length (items s)));
      cbn [fst items setItems setHasChanges]; [|reflexivity].
    now apply filter_other_ids.
  - intro productId. unfold updateItemPrice.
    destruct (find _ (products env)); [|reflexivity].
    cbn [fst items setItems setHasChanges]. now apply map_by_id_absent.
  - intro quantity. unfold updateItemQuantity.
    cbn [fst items setItems setHasChanges]. now apply map_by_id_absent.
  - intros item price <-. unfold priceOnChange.
    destruct (negb (JS.isNaN price) && (price >= JS.zero)%js); [|reflexivity].
    cbn [fst items setItems setHasChanges]. now apply map_by_id_absent.
Qed.

Lemma edit_absent_id_keeps_items_witness :
  items (fst (removeItem "i9" twoRows)) = items twoRows
  /\ items (fst (updateItemQuantity "i9" (JS.ofZ 7) twoRows)) = items twoRows.
Proof.
  assert (H : absent "i9" twoRows)
    by (intros item [<- | [<- | []]]; discriminate).
  split; apply (edit_absent_id_keeps_items catalogue twoRows "i9" H).
Defined.

(** X10.  On a list of two or more items [removeItem] removes every item
    that has the id, not only the first: no item with the id is left, the
    items with another id all stay, and the count drops by the number of
    items that had the id. *)
Theorem removeItem_removes_every_match :
  forall (s : State) (id : string),
    (2 <= List.length (items s))%nat ->
    let s' := fst (removeItem id s) in
    absent id s'
    /\ (forall item, In item (items s') <->
                     In item (items s) /\ OrderItem.id item <> id)
    /\ (List.length (items s')
        + List.length
            (filter (fun item => String.eqb (OrderItem.id item) id) (items s))
        = List.length (items s))%nat.
Proof.
  intros s id Hlen s'. subst s'. unfold removeItem, absent.
  destruct (Nat.ltb_spec 1 (List.length (items s))) as [_|Hlt]; [|lia].
  cbn [fst items setItems setHasChanges].
  assert (Hin : forall item,
             In item (filter (fun it => negb (String.eqb (OrderItem.id it) id))
                        (items s))
             <-> In item (items s) /\ OrderItem.id item <> id).
  { intro item. rewrite filter_In, negb_true_iff, String.eqb_neq. reflexivity. }
  split; [|split].
  - intros item H. now apply Hin in H.
  - exact Hin.
  - clear. induction (items s) as [|item l IH]; [reflexivity|].
    cbn [filter]. destruct (String.eqb (OrderItem.id item) id);
      cbn [negb List.length]; lia.
Qed.

Lemma removeItem_removes_every_match_witness :
  absent "i1" (fst (removeItem "i1" (setItems [keyboard; keyboard; blank] initialState)))
  /\ items (fst (removeItem "i1" (setItems [keyboard; keyboard; blank] initialState)))
     = [blank].
Proof.
  split; [|reflexivity].
  apply (removeItem_removes_every_match
           (setItems [keyboard; keyboard; blank] initialState) "i1").
  simpl. lia.
Defined.

Lemma NoDup_filter_ids (id : string) (l : list string) :
  NoDup l -> NoDup (filter (fun x => negb (String.eqb x id)) l).
Proof. apply NoDup_filter. Qed.

(** X11.  If the ids of the items are pairwise distinct they stay so after
    every edit, provided the id [addItem] receives is not already the id of
    an item. *)
Theorem edit_keeps_ids_distinct :
  forall (env : Env) (e : Edit) (s : State),
    idsDistinct s -> freshRequest s e -> idsDistinct (fst (edit env e s)).
Proof.
  unfold idsDistinct. intros env e s Hs He. rewrite edit_ids.
  destruct e as [uuid | id | id productId | id quantity | item price];
    try exact Hs.
  - cbn [freshRequest] in He. apply NoDup_app; [exact Hs | | ].
    + repeat constructor. intros [].
    + intros x Hx [<- | []]. contradiction.
  - destruct (Nat.ltb 1 (List.length (items s))); [|exact Hs].
    now apply NoDup_filter_ids.
Qed.

Lemma twoRows_distinct : idsDistinct twoRows.
Proof.
  repeat constructor; simpl; intuition discriminate.
Qed.

Lemma edit_keeps_ids_distinct_witness :
  idsDistinct (fst (edit catalogue (AddItem "i3") twoRows)).
Proof.
  apply (edit_keeps_ids_distinct catalogue (AddItem "i3") twoRows).
  - exact twoRows_distinct.
  - simpl. intros [H | [H | []]]; discriminate.
Defined.

Lemma removed_at_most_one (id : string) (l : list OrderItem.t) :
  NoDup (map OrderItem.id l) ->
  (List.length l
   <= S (List.length
           (filter (fun item => negb (String.eqb (OrderItem.id item) id)) l)))%nat.
Proof.
  induction l as [|item l IH]; intro H; [cbn; lia|].
  cbn [map] in H. inversion H as [|? ? Hnotin Hl]; subst.
  cbn [filter]. destruct (String.eqb_spec (OrderItem.id item) id) as [E|E];
    cbn [negb List.length].
  - rewrite filter_other_ids; [lia|]. intros other Hin Heq.
    apply Hnotin. rewrite E, <- Heq. now apply in_map.
  - specialize (IH Hl). lia.
Qed.

(** X12.  While the ids of the items are pairwise distinct, no edit empties
    a list that has an item: the form always keeps at least one row. *)
Theorem edit_keeps_an_item :
  forall (env : Env) (e : Edit) (s : State),
    idsDistinct s -> items s <> [] -> items (fst (edit env e s)) <> [].
Proof.
  intros env e s Hd Hne.
  assert (Hlen : forall l : list OrderItem.t,
             (0 < List.length l)%nat -> l <> [])
    by (intros [|] H; [inversion H | discriminate]).
  assert (Hpos : (0 < List.length (items s))%nat)
    by (destruct (items s); [contradiction | cbn; lia]).
  apply Hlen.
  destruct e as [uuid | id | id productId | id quantity | item price];
    cbn [edit].
  - unfold addItem. cbn [fst items setItems setHasChanges].
    rewrite length_app. cbn. lia.
  - unfold removeItem.
    destruct (Nat.ltb_spec 1 (List.length (items s))) as [H|H];
      cbn [fst items setItems setHasChanges]; [|exact Hpos].
    pose proof (removed_at_most_one id (items s) Hd). lia.
  - unfold updateItemPrice. destruct (find _ (products env)); [|exact Hpos].
    cbn [fst items setItems setHasChanges]. now rewrite length_map.
  - unfold updateItemQuantity. cbn [fst items setItems setHasChanges].
    now rewrite length_map.
  - unfold priceOnChange.
    destruct (negb (JS.isNaN price) && (price >= JS.zero)%js); [|exact Hpos].
    cbn [fst items setItems setHasChanges]. now rewrite length_map.
Qed.

Lemma edit_keeps_an_item_witness :
  idsDistinct twoRows /\ List.length (items (fst (edit catalogue (RemoveItem "i1") twoRows))) = 1%nat.
Proof.
  split; [exact twoRows_distinct|].
  pose proof (edit_keeps_an_item catalogue (RemoveItem "i1") twoRows
                twoRows_distinct) as H.
  destruct (items (fst (edit catalogue (RemoveItem "i1") twoRows))) as [|a [|b l]] eqn:E.
  - exfalso. apply H; [discriminate | reflexivity].
  - reflexivity.
  - discriminate E.
Defined.

(** X13.  The remove button of a row is disabled exactly when [removeItem]
    would refuse that row: with the button enabled, removing a row of the
    form never shows the refusal toast. *)
Theorem removeDisabled_iff_refused :
  forall (s : State) (item : OrderItem.t),
    In item (items s) ->
    (removeDisabled s = true
     <-> removeItem (OrderItem.id item) s = (s, [toast cannotRemove]))
    /\ (removeDisabled s = false -> snd (removeItem (OrderItem.id item) s) = []).
Proof.
  intros s item Hin. unfold removeDisabled, removeItem.
  assert (Hpos : (0 < List.length (items s))%nat)
    by (destruct (items s); [destruct Hin | cbn; lia]).
  destruct (Nat.ltb_spec 1 (List.length (items s))) as [H|H];
    destruct (Nat.eqb_spec (List.length (items s)) 1) as [E|E]; try lia.
  - split; [|reflexivity]. split; [discriminate|]. intro F.
    apply (f_equal snd) in F. discriminate.
  - split; [|discriminate]. split; reflexivity.
Qed.

Lemma removeDisabled_iff_refused_witness :
  snd (removeItem (OrderItem.id blank) twoRows) = [].
Proof.
  apply (removeDisabled_iff_refused twoRows blank).
  - right; left; reflexivity.
  - reflexivity.
Defined.

End Edits.

(** ** The quantity input and the stock *)

Section QuantityInput.

Lemma floor_ofZ (z : Z) : JS.floor (JS.ofZ z) = JS.ofZ z.
Proof.
  assert (E : Qfloor (Q2Qc (inject_Z z)) = z).
  { rewrite this_Q2Qc, (Qfloor_comp _ _ (Qred_correct _)). apply Qfloor_Z. }
  unfold JS.ofZ at 1. cbn [JS.floor]. now rewrite E.
Qed.

Lemma ge_ofZ (a b : Z) : (JS.ofZ a >= JS.ofZ b)%js = Z.leb b a.
Proof. apply Qle_bool_ofZ. Qed.


(** X14.  The quantity input stores an integer that is at least 1 exactly
    as typed, on every item with the row's id: the stock of the product
    plays no part, so a quantity above [maxQuantity] is stored as well.  A
    value below 1 or [NaN] changes nothing. *)
Theorem quantityOnChange_stores_integer :
  forall (s : State) (item : OrderItem.t) (z : Z),
    ((1 <= z)%Z ->
     forall n i, nth_error (items s) n = Some i ->
                 OrderItem.id i = OrderItem.id item ->
                 nth_error (items (fst (quantityOnChange item (JS.ofZ z) s))) n
                 = Some (withQuantity (JS.ofZ z) i))
    /\ ((z < 1)%Z -> quantityOnChange item (JS.ofZ z) s = (s, []))
    /\ quantityOnChange item JS.NaN s = (s, []).
Proof.
  intros s item z. unfold quantityOnChange. change JS.one with (JS.ofZ 1).
  rewrite ge_ofZ. cbn [JS.isNaN negb andb JS.ofZ]. split; [|split].
  - intros Hz n i Hn E. destruct (Z.leb_spec 1 z); [|lia].
    unfold updateItemQuantity. cbn [fst items setItems setHasChanges].
    fold (JS.ofZ z). rewrite floor_ofZ. change JS.one with (JS.ofZ 1).
    rewrite max_ofZ, Z.max_r by lia.
    now apply (map_by_id_hit (withQuantity (JS.ofZ z))).
  - intro Hz. destruct (Z.leb_spec 1 z); [lia | reflexivity].
  - reflexivity.
Qed.

Lemma quantityOnChange_stores_integer_witness :
  nth_error (items (fst (quantityOnChange keyboard (JS.ofZ 99) twoRows))) 0
  = Some (withQuantity (JS.ofZ 99) keyboard)
  /\ quantityOnChange keyboard (JS.ofZ 0) twoRows = (twoRows, []).
Proof.
  split.
  - apply (quantityOnChange_stores_integer twoRows keyboard 99);
      first [ reflexivity | lia ].
  - destruct (quantityOnChange_stores_integer twoRows keyboard 0)
      as (_ & H & _).
    apply H. lia.
Defined.





End QuantityInput.

(** ** Original items *)

Section Original.

(** X17.  Once the order of the route is loaded into the form, every item of
    the form is marked as an original order item, and an item added with an
    id that no item of the order has is not. *)
Theorem isOriginalItem_after_load :
  forall (env : Env) (o : Order.t) (s : State),
    order env = Some o ->
    (forall item, In item (items (loadOrder o s)) ->
                  isOriginalItem env item = true)
    /\ (forall uuid, ~ In uuid (map OrderItem.id (Order.items o)) ->
                     isOriginalItem env (newItem uuid) = false).
Proof.
  intros env o s Ho. unfold isOriginalItem. rewrite Ho. split.
  - cbn [loadOrder items setItems setCustomerId setEmployeeId setStatus
         setHasChanges].
    intros item Hin. apply existsb_exists. exists item.
    split; [exact Hin | apply String.eqb_refl].
  - intros uuid Hfresh. cbn [newItem OrderItem.id].
    destruct (existsb _ (Order.items o)) eqn:E; [|reflexivity].
    apply existsb_exists in E as (i & Hin & Hi). apply String.eqb_eq in Hi.
    exfalso. apply Hfresh. rewrite <- Hi. now apply in_map.
Qed.

Lemma isOriginalItem_after_load_witness :
  isOriginalItem office keyboard = true
  /\ isOriginalItem office (newItem "i7") = false.
Proof.
  split.
  - apply (isOriginalItem_after_load office stored initialState eq_refl).
    left; reflexivity.
  - apply (isOriginalItem_after_load office stored initialState eq_refl).
    simpl. intros [H | []]. discriminate.
Defined.

End Original.

(** ** The total while the form is edited *)

Section TotalAndEdits.

Lemma selected_by_id (f : OrderItem.t -> OrderItem.t) (id : string)
  (l : list OrderItem.t) :
  (forall item, OrderItem.productId (f item) = OrderItem.productId item) ->
  (forall item, In item l -> OrderItem.id item = id ->
                OrderItem.productId item = "") ->
  map lineAmount
    (filter selected
       (map (fun item => if String.eqb (OrderItem.id item) id then f item else item)
          l))
  = map lineAmount (filter selected l).
Proof.
  intros Hf Hblank. induction l as [|item l IH]; [reflexivity|].
  assert (IH' : map lineAmount
                  (filter selected
                     (map (fun item => if String.eqb (OrderItem.id item) id
                                       then f item else item) l))
                = map lineAmount (filter selected l))
    by (apply IH; intros other Hin; apply Hblank; now right).
  cbn [map filter].
  destruct (String.eqb_spec (OrderItem.id item) id) as [E|E].
  - assert (Hb : OrderItem.productId item = "")
      by (apply Hblank; [now left | exact E]).
    assert (S1 : selected (f item) = false) by (unfold selected; now rewrite Hf, Hb).
    assert (S2 : selected item = false) by (unfold selected; now rewrite Hb).
    rewrite S1, S2. exact IH'.
  - destruct (selected item); cbn [map]; now rewrite IH'.
Qed.

(** X18.  Rows without a product do not count: [addItem] leaves the total
    as it was, and so do a quantity edit and a price edit of an id whose
    items all have no product selected. *)
Theorem calculateTotal_ignores_blank_rows :
  forall (s : State) (id : string),
    (forall uuid, calculateTotal (fst (addItem uuid s)) = calculateTotal s)
    /\ ((forall item, In item (items s) -> OrderItem.id item = id ->
                      OrderItem.productId item = "") ->
        (forall quantity,
            calculateTotal (fst (updateItemQuantity id quantity s))
            = calculateTotal s)
        /\ (forall item price,
               OrderItem.id item = id ->
               calculateTotal (fst (priceOnChange item price s))
               = calculateTotal s)).
Proof.
  intros s id. split.
  - intro uuid. rewrite !calculateTotal_lineAmounts. unfold addItem.
    cbn [fst items setItems setHasChanges]. rewrite filter_app. cbn [filter].
    unfold selected at 2. cbn [OrderItem.productId JS.truthyS].
    now rewrite app_nil_r.
  - intro Hblank. split.
    + intro quantity. rewrite !calculateTotal_lineAmounts.
      unfold updateItemQuantity. cbn [fst items setItems setHasChanges].
      f_equal. now apply selected_by_id.
    + intros item price <-. rewrite !calculateTotal_lineAmounts.
      unfold priceOnChange.
      destruct (negb (JS.isNaN price) && (price >= JS.zero)%js); [|reflexivity].
      cbn [fst items setItems setHasChanges]. f_equal. now apply selected_by_id.
Qed.

Lemma calculateTotal_ignores_blank_rows_witness :
  calculateTotal (fst (updateItemQuantity "i2" (JS.ofZ 9) twoRows))
  = calculateTotal twoRows.
Proof.
  destruct (calculateTotal_ignores_blank_rows twoRows "i2") as (_ & H).
  destruct H as [H _].
  - intros item [<- | [<- | []]]; [discriminate | reflexivity].
  - exact (H (JS.ofZ 9)).
Defined.

Lemma accepted_zero : accepted JS.zero = true.
Proof. reflexivity. Qed.

Lemma two_to_pos (z : Z) : (0 < JS.two_to z)%Q.
Proof. apply Qpower_0_lt. reflexivity. Qed.

Lemma roundHalfEven_nonneg (m : Q) :
  (0 <= m)%Q -> (0 <= JS.roundHalfEven m)%Z.
Proof.
  intro H. unfold JS.roundHalfEven.
  assert (F : (0 <= Qfloor m)%Z)
    by (change 0%Z with (Qfloor 0); now apply Qfloor_resp_le).
  destruct (m - inject_Z (Qfloor m) ?= 1 # 2)%Q; try lia.
  destruct (Z.even (Qfloor m)); lia.
Qed.

(** Rounding keeps a result that is not below 0 a number that is not below
    0: it gives 0, a positive binary64 value or [+Infinity]. *)
Lemma round_accepted (q : Q) : (0 <= q)%Q -> accepted (JS.round q) = true.
Proof.
  intro H. unfold JS.round. destruct (q ?= 0)%Q eqn:C.
  - reflexivity.
  - apply Qlt_alt in C. exfalso. now apply (Qle_not_lt 0 q).
  - unfold JS.roundPos.
    destruct (Qle_bool (JS.two_to 1024) _); [reflexivity|].
    apply accepted_iff. right. eexists. split; [reflexivity|].
    rewrite this_Q2Qc, Qred_correct. apply Qmult_le_0_compat.
    + change 0%Q with (inject_Z 0). rewrite <- Zle_Qle.
      apply roundHalfEven_nonneg. unfold Qdiv. apply Qmult_le_0_compat;
        [exact H | apply Qlt_le_weak, Qinv_lt_0_compat, two_to_pos].
    + apply Qlt_le_weak, two_to_pos.
Qed.

Lemma accepted_add (a b : JS.number) :
  accepted a = true -> accepted b = true -> accepted (a + b)%js = true.
Proof.
  intros Ha Hb. apply accepted_iff in Ha, Hb.
  destruct Ha as [-> | (p & -> & Hp)]; destruct Hb as [-> | (q & -> & Hq)];
    cbn [JS.add]; try reflexivity.
  apply round_accepted. change 0%Q with (0 + 0)%Q. now apply Qplus_le_compat.
Qed.

Lemma accepted_mul_quantity (a x : JS.number) :
  accepted a = true -> validQuantity x -> accepted (a * x)%js = true.
Proof.
  intros Ha (z & Hz & ->). apply accepted_iff in Ha.
  assert (Hq : (0 <= Q2Qc (inject_Z z))%Q).
  { rewrite this_Q2Qc, Qred_correct. change 0%Q with (inject_Z 0).
    rewrite <- Zle_Qle. lia. }
  destruct Ha as [-> | (p & -> & Hp)].
  - unfold JS.ofZ, JS.mul. cbn [JS.sign].
    assert (E : (Q2Qc (inject_Z z) ?= 0)%Q = Gt).
    { apply Qgt_alt. rewrite this_Q2Qc, Qred_correct.
      change 0%Q with (inject_Z 0). rewrite <- Zlt_Qlt. lia. }
    now rewrite E.
  - unfold JS.ofZ. cbn [JS.mul]. apply round_accepted.
    now apply Qmult_le_0_compat.
Qed.

Lemma accepted_or_zero (a : JS.number) :
  accepted a = true -> accepted (a || JS.zero)%js = true.
Proof. unfold JS.or. now destruct (JS.truthy a). Qed.

Lemma accepted_total_from (l : list OrderItem.t) (acc : JS.number) :
  accepted acc = true ->
  Forall (fun item => accepted (OrderItem.price item) = true) l ->
  Forall (fun item => validQuantity (OrderItem.quantity item)) l ->
  accepted (fold_left JS.add (map lineAmount (filter selected l)) acc) = true.
Proof.
  revert acc. induction l as [|item l IH]; intros acc Hacc Hp Hq; [exact Hacc|].
  inversion Hp as [|? ? Hp1 Hp2]; inversion Hq as [|? ? Hq1 Hq2]; subst.
  cbn [filter]. destruct (selected item); cbn [map fold_left]; [|now apply IH].
  apply IH; trivial. apply accepted_add; [exact Hacc|].
  unfold lineAmount. rewrite (or_truthy (OrderItem.quantity item))
    by now apply validQuantity_truthy.
  apply accepted_mul_quantity; [now apply accepted_or_zero | exact Hq1].
Qed.

(** X19.  When every price is a number that is not below 0 and every
    quantity is an integer of at least 1, the total is a number that is not
    below 0: it is never [NaN] and never negative. *)
Theorem calculateTotal_not_negative :
  forall s : State,
    pricesAccepted s -> quantitiesValid s ->
    JS.isNaN (calculateTotal s) = false
    /\ (calculateTotal s >= JS.zero)%js = true.
Proof.
  intros s Hp Hq.
  assert (H : accepted (calculateTotal s) = true).
  { rewrite calculateTotal_lineAmounts.
    now apply accepted_total_from; [apply accepted_zero | |]. }
  unfold accepted in H. apply andb_true_iff in H as [H1 H2].
  split; [now apply negb_true_iff | exact H2].
Qed.

Lemma calculateTotal_not_negative_witness :
  JS.isNaN (calculateTotal twoRows) = false
  /\ (calculateTotal twoRows >= JS.zero)%js = true.
Proof.
  apply (calculateTotal_not_negative twoRows).
  - repeat constructor.
  - exact twoRows_valid.
Defined.

(** X20.  If every price of the catalogue and every price of the form is a
    number that is not below 0, this still holds after every edit: a
    price can only come from the catalogue or pass the test of the price
    input. *)
Theorem edit_keeps_prices_accepted :
  forall (env : Env) (e : Edit) (s : State),
    cataloguePricesAccepted env -> pricesAccepted s ->
    pricesAccepted (fst (edit env e s)).
Proof.
  unfold cataloguePricesAccepted, pricesAccepted. intros env e s Hc Hs.
  destruct e as [uuid | id | id productId | id quantity | item price];
    cbn [edit].
  - unfold addItem. cbn [fst items setItems setHasChanges].
    apply Forall_app. split; [exact Hs|]. repeat constructor.
  - unfold removeItem. destruct (Nat.ltb 1 (List.length (items s)));
      cbn [fst items setItems setHasChanges]; [|exact Hs].
    rewrite Forall_forall in *. intros item Hin.
    apply filter_In in Hin as [Hin _]. now apply Hs.
  - unfold updateItemPrice.
    destruct (find _ (products env)) as [product|] eqn:F; [|exact Hs].
    apply find_some in F as [Hin _].
    rewrite Forall_forall in Hc. specialize (Hc product Hin).
    cbn [fst items setItems setHasChanges]. apply Forall_map.
    eapply Forall_impl; [|exact Hs]. intros item Hitem. cbv beta.
    destruct (String.eqb (OrderItem.id item) id); [exact Hc | exact Hitem].
  - unfold updateItemQuantity. cbn [fst items setItems setHasChanges].
    apply Forall_map. eapply Forall_impl; [|exact Hs].
    intros item Hitem. cbv beta.
    destruct (String.eqb (OrderItem.id item) id); exact Hitem.
  - unfold priceOnChange. fold (accepted price).
    destruct (accepted price) eqn:A; [|exact Hs].
    cbn [fst items setItems setHasChanges]. apply Forall_map.
    eapply Forall_impl; [|exact Hs]. intros i Hi. cbv beta.
    destruct (String.eqb (OrderItem.id i) (OrderItem.id item));
      [exact A | exact Hi].
Qed.

Lemma edit_keeps_prices_accepted_witness :
  pricesAccepted
    (fst (edit catalogue (PriceChange keyboard (JS.Fin (Q2Qc (-3 # 1)))) twoRows)).
Proof.
  apply (edit_keeps_prices_accepted catalogue
           (PriceChange keyboard (JS.Fin (Q2Qc (-3 # 1)))) twoRows);
    repeat constructor.
Defined.

End TotalAndEdits.

(** ** Edits of different rows and repeated edits *)

Section Order_of_edits.

Lemma map_by_id_twice (f g : OrderItem.t -> OrderItem.t) (id1 id2 : string)
  (l : list OrderItem.t) :
  (forall item, OrderItem.id (f item) = OrderItem.id item) ->
  (forall item, OrderItem.id (g item) = OrderItem.id item) ->
  (forall item,
      (if String.eqb (OrderItem.id item) id1
       then (if String.eqb (OrderItem.id item) id2 then f (g item) else g item)
       else (if String.eqb (OrderItem.id item) id2 then f item else item))
      = (if String.eqb (OrderItem.id item) id2
         then (if String.eqb (OrderItem.id item) id1 then g (f item) else f item)
         else (if String.eqb (OrderItem.id item) id1 then g item else item))) ->
  map (fun item => if String.eqb (OrderItem.id item) id2 then f item else item)
    (map (fun item => if String.eqb (OrderItem.id item) id1 then g item else item) l)
  = map (fun item => if String.eqb (OrderItem.id item) id1 then g item else item)
      (map (fun item => if String.eqb (OrderItem.id item) id2 then f item else item) l).
Proof.
  intros Hf Hg H. rewrite !map_map. apply map_ext. intro item.
  specialize (H item).
  destruct (String.eqb (OrderItem.id item) id1) eqn:E1;
    destruct (String.eqb (OrderItem.id item) id2) eqn:E2;
    rewrite ?Hf, ?Hg, ?E1, ?E2; congruence.
Qed.

(** X21.  Quantity edits of two different ids can be made in either order,
    and a quantity edit and a price edit can be made in either order
    whatever their ids: the resulting state is the same. *)
Theorem edits_commute :
  forall (s : State) (id1 id2 : string) (q1 q2 : JS.number),
    (id1 <> id2 ->
     fst (updateItemQuantity id2 q2 (fst (updateItemQuantity id1 q1 s)))
     = fst (updateItemQuantity id1 q1 (fst (updateItemQuantity id2 q2 s))))
    /\ (forall item price,
           fst (priceOnChange item price (fst (updateItemQuantity id1 q1 s)))
           = fst (updateItemQuantity id1 q1 (fst (priceOnChange item price s)))).
Proof.
  intros s id1 id2 q1 q2. split.
  - intro Hne. unfold updateItemQuantity.
    unfold setHasChanges, setItems.
    cbn [fst items customerId employeeId status isSubmitting hasChanges].
    f_equal.
    apply (map_by_id_twice (withQuantity _) (withQuantity _)); try reflexivity.
    intro item.
    destruct (String.eqb_spec (OrderItem.id item) id1) as [E1|E1];
      destruct (String.eqb_spec (OrderItem.id item) id2) as [E2|E2];
      try reflexivity.
    congruence.
  - intros item price. unfold priceOnChange.
    destruct (negb (JS.isNaN price) && (price >= JS.zero)%js); [|reflexivity].
    unfold updateItemQuantity.
    unfold setHasChanges, setItems.
    cbn [fst items customerId employeeId status isSubmitting hasChanges].
    f_equal.
    apply (map_by_id_twice (withPrice price) (withQuantity _)); try reflexivity.
    intro item'.
    destruct (String.eqb (OrderItem.id item') id1);
      destruct (String.eqb (OrderItem.id item') (OrderItem.id item));
      reflexivity.
Qed.

Lemma edits_commute_witness :
  fst (updateItemQuantity "i2" (JS.ofZ 5)
         (fst (updateItemQuantity "i1" (JS.ofZ 2) twoRows)))
  = fst (updateItemQuantity "i1" (JS.ofZ 2)
           (fst (updateItemQuantity "i2" (JS.ofZ 5) twoRows))).
Proof.
  apply (edits_commute twoRows "i1" "i2" (JS.ofZ 2) (JS.ofZ 5)). discriminate.
Defined.

(** X22.  Of two quantity edits of the same id the last one wins: the state
    is the one the second edit alone would give.  The same holds for two
    selections of a product for the same id. *)
Theorem last_edit_wins :
  forall (env : Env) (s : State) (id : string),
    (forall q1 q2,
        fst (updateItemQuantity id q2 (fst (updateItemQuantity id q1 s)))
        = fst (updateItemQuantity id q2 s))
    /\ (forall pid1 pid2 product1 product2,
           find (fun p => String.eqb (Product.id p) pid1) (products env)
           = Some product1 ->
           find (fun p => String.eqb (Product.id p) pid2) (products env)
           = Some product2 ->
           fst (updateItemPrice env id pid2 (fst (updateItemPrice env id pid1 s)))
           = fst (updateItemPrice env id pid2 s)).
Proof.
  intros env s id. split.
  - intros q1 q2. unfold updateItemQuantity.
    unfold setHasChanges, setItems.
    cbn [fst items customerId employeeId status isSubmitting hasChanges].
    f_equal. rewrite map_map. apply map_ext. intro item.
    destruct (String.eqb (OrderItem.id item) id) eqn:E;
      cbn [OrderItem.id]; now rewrite E.
  - intros pid1 pid2 product1 product2 F1 F2. unfold updateItemPrice.
    rewrite F1, F2.
    unfold setHasChanges, setItems.
    cbn [fst items customerId employeeId status isSubmitting hasChanges].
    f_equal. rewrite map_map. apply map_ext. intro item.
    destruct (String.eqb (OrderItem.id item) id) eqn:E;
      cbn [OrderItem.id]; now rewrite E.
Qed.

Lemma last_edit_wins_witness :
  fst (updateItemPrice catalogue "i1" "p2"
         (fst (updateItemPrice catalogue "i1" "p1" twoRows)))
  = fst (updateItemPrice catalogue "i1" "p2" twoRows).
Proof.
  destruct (last_edit_wins catalogue twoRows "i1") as (_ & H).
  apply (H "p1" "p2" p1 p2); reflexivity.
Defined.

End Order_of_edits.

(** ** Whole editing sessions *)

Section Sessions.

(** Where the items of the state after an edit come from. *)
Lemma edit_items_origin (env : Env) (e : Edit) (s : State) (item' : OrderItem.t) :
  In item' (items (fst (edit env e s))) ->
  In item' (items s)
  \/ match e with
     | AddItem uuid => item' = newItem uuid
     | RemoveItem _ => False
     | UpdateItemPrice _ productId =>
         exists product old,
           In product (products env) /\ In old (items s)
           /\ item' = withProduct product old
     | UpdateItemQuantity _ quantity =>
         exists old,
           In old (items s)
           /\ item' = withQuantity (JS.max JS.one (JS.floor quantity)) old
     | PriceChange _ price =>
         accepted price = true
         /\ exists old, In old (items s) /\ item' = withPrice price old
     end.
Proof.
  destruct e as [uuid | id | id productId | id quantity | item price];
    cbn [edit].
  - unfold addItem. cbn [fst items setItems setHasChanges].
    rewrite in_app_iff. intros [H | [<- | []]]; [now left | now right].
  - unfold removeItem. destruct (Nat.ltb 1 (List.length (items s)));
      cbn [fst items setItems setHasChanges]; [|now left].
    intro H. apply filter_In in H as [H _]. now left.
  - unfold updateItemPrice.
    destruct (find _ (products env)) as [product|] eqn:F; [|now left].
    apply find_some in F as [Hin _].
    cbn [fst items setItems setHasChanges]. rewrite in_map_iff.
    intros (old & <- & Hold).
    destruct (String.eqb (OrderItem.id old) id); [|now left].
    right. exists product, old. repeat split; assumption.
  - unfold updateItemQuantity. cbn [fst items setItems setHasChanges].
    rewrite in_map_iff. intros (old & <- & Hold).
    destruct (String.eqb (OrderItem.id old) id); [|now left].
    right. exists old. split; [assumption | reflexivity].
  - unfold priceOnChange. fold (accepted price).
    destruct (accepted price) eqn:A; [|now left].
    cbn [fst items setItems setHasChanges]. rewrite in_map_iff.
    intros (old & <- & Hold).
    destruct (String.eqb (OrderItem.id old) (OrderItem.id item)); [|now left].
    right. split; [reflexivity|]. exists old. split; [assumption | reflexivity].
Qed.

Lemma edit_keeps_form_sound (env : Env) (e : Edit) (s : State) :
  cataloguePricesAccepted env -> realRequest e ->
  quantitiesValid s /\ pricesAccepted s ->
  quantitiesValid (fst (edit env e s)) /\ pricesAccepted (fst (edit env e s)).
Proof.
  unfold cataloguePricesAccepted, quantitiesValid, pricesAccepted.
  rewrite !Forall_forall. intros Hc He [Hq Hp].
  split; intros item' Hin; apply edit_items_origin in Hin as [Hin | Hin]; auto;
    destruct e as [uuid | id | id productId | id quantity | item price];
    try contradiction.
  - subst item'. apply validQuantity_one.
  - destruct Hin as (product & old & _ & _ & ->). apply validQuantity_one.
  - destruct Hin as (old & _ & ->). destruct He as (q & ->).
    apply validQuantity_max_1_floor.
  - destruct Hin as (_ & old & Hold & ->). cbn. now apply Hq.
  - subst item'. reflexivity.
  - destruct Hin as (product & old & Hprod & _ & ->). cbn. now apply Hc.
  - destruct Hin as (old & Hold & ->). cbn. now apply Hp.
  - destruct Hin as (A & old & _ & ->). exact A.
Qed.

(** X23.  Starting from a form in which every quantity is an integer of at
    least 1 and every price a number that is not below 0, with such prices
    in the catalogue as well, any sequence of edits whose quantity requests
    are real numbers ends in a form with the same two properties, and its
    total is neither [NaN] nor negative. *)
Theorem edits_keep_form_sound :
  forall (env : Env) (es : list Edit) (s : State),
    cataloguePricesAccepted env ->
    Forall realRequest es ->
    quantitiesValid s -> pricesAccepted s ->
    quantitiesValid (edits env es s)
    /\ pricesAccepted (edits env es s)
    /\ JS.isNaN (calculateTotal (edits env es s)) = false
    /\ (calculateTotal (edits env es s) >= JS.zero)%js = true.
Proof.
  intros env es s Hc Hes Hq Hp.
  assert (H : quantitiesValid (edits env es s) /\ pricesAccepted (edits env es s)).
  { unfold edits. revert s Hq Hp.
    induction Hes as [|e es He _ IH]; intros s Hq Hp; [now split|].
    cbn [fold_left].
    destruct (edit_keeps_form_sound env e s Hc He (conj Hq Hp)) as [Hq' Hp'].
    now apply IH. }
  destruct H as [Hq' Hp']. split; [exact Hq'|]. split; [exact Hp'|].
  assert (A : accepted (calculateTotal (edits env es s)) = true).
  { rewrite calculateTotal_lineAmounts.
    now apply accepted_total_from; [apply accepted_zero | |]. }
  unfold accepted in A. apply andb_true_iff in A as [A1 A2].
  split; [now apply negb_true_iff | exact A2].
Qed.

Lemma edits_keep_form_sound_witness :
  quantitiesValid (edits catalogue (session "item1" "item2" "p1" "p2") initialState)
  /\ pricesAccepted (edits catalogue (session "item1" "item2" "p1" "p2") initialState)
  /\ JS.isNaN
       (calculateTotal
          (edits catalogue (session "item1" "item2" "p1" "p2") initialState))
     = false
  /\ (calculateTotal
        (edits catalogue (session "item1" "item2" "p1" "p2") initialState)
      >= JS.zero)%js = true.
Proof.
  apply (edits_keep_form_sound catalogue (session "item1" "item2" "p1" "p2")
           initialState).
  - repeat constructor.
  - repeat constructor; eexists; reflexivity.
  - constructor.
  - constructor.
Defined.

End Sessions.

(** ** The order number shown after a save *)

Section OrderNumber.











End OrderNumber.
